(** * Spreadsheet-driven form automation: [selenium_automation.py]

    Shallow embedding of [SeleniumAutomation.processar_planilha] and of the
    methods it calls, together with the two GUI methods of [app_gui.py] that
    share the automation object with it ([_run_automation] and
    [_stop_automation]).

    - Cell values are the values [openpyxl] hands out with
      [values_only=True].
    - Python exceptions are carried by their message, [str(e)], which is
      all the code ever reads of them.
    - The browser, the progress callback and the file system are external:
      every call into them is recorded in a trace, and an oracle decides,
      from the trace so far, whether the call raises.
    - [time.sleep] and the [logger] calls have no effect on the returned
      statistics and are left out.
    - Exceptions are those the [except Exception] clauses catch;
      [KeyboardInterrupt] and [SystemExit] are outside the model.
    - Strings are byte strings; the whitespace and digit classes of [strip]
      and [int] are the ASCII ones, and the interpreter's limit on the
      length of integer strings is not modelled. *)

From Stdlib Require Import String Ascii List ZArith Bool Arith Lia.
From Stdlib Require Import Sorted.
From Stdlib Require DecimalString.
Import ListNotations.
Open Scope string_scope.
Open Scope list_scope.
Open Scope nat_scope.

(** ** Python values and built-ins *)

(** What [int(v)] or any other raising operation yields: a value, or the
    message of the exception raised. *)
Inductive result (A : Type) : Type :=
| Ok (a : A)
| Raise (msg : string).
Arguments Ok {A} a.
Arguments Raise {A} msg.

(** A spreadsheet cell as read with [values_only=True].  [COther] stands
    for the remaining value types (float, datetime, ...), described by the
    three observations the code makes of a cell: [bool(v)], [str(v)] and
    [int(v)]. *)
Inductive cell : Type :=
| CNone
| CBool (b : bool)
| CInt (z : Z)
| CStr (s : string)
| COther (truth : bool) (text : string) (as_int : result Z).

Definition row : Type := list cell.

(** [bool(v)] *)
Definition truthy (c : cell) : bool :=
  match c with
  | CNone => false
  | CBool b => b
  | CInt z => negb (Z.eqb z 0)
  | CStr s => negb (String.eqb s "")
  | COther t _ _ => t
  end.

(** [all([...])] *)
Definition py_all (l : list cell) : bool := forallb truthy l.

Definition str_of_nat (n : nat) : string :=
  DecimalString.NilZero.string_of_uint (Nat.to_uint n).

Definition str_of_Z (z : Z) : string :=
  DecimalString.NilZero.string_of_int (Z.to_int z).

(** [str(v)] *)
Definition py_str (c : cell) : string :=
  match c with
  | CNone => "None"
  | CBool true => "True"
  | CBool false => "False"
  | CInt z => str_of_Z z
  | CStr s => s
  | COther _ t _ => t
  end.

(** ASCII whitespace, as [str.strip] and [int] see it. *)
Definition is_space (c : ascii) : bool :=
  let n := nat_of_ascii c in
  ((9 <=? n) && (n <=? 13)) || ((28 <=? n) && (n <=? 32)).

Fixpoint lstrip (s : string) : string :=
  match s with
  | EmptyString => EmptyString
  | String c s' => if is_space c then lstrip s' else s
  end.

Fixpoint rstrip (s : string) : string :=
  match s with
  | EmptyString => EmptyString
  | String c s' =>
      match rstrip s' with
      | EmptyString => if is_space c then EmptyString else String c EmptyString
      | t => String c t
      end
  end.

(** [s.strip()] *)
Definition strip (s : string) : string := rstrip (lstrip s).

Definition digit_of (c : ascii) : option Z :=
  let n := nat_of_ascii c in
  if (48 <=? n) && (n <=? 57) then Some (Z.of_nat (n - 48)) else None.

(** Decimal digits with single underscores between them. [seen] tells
    whether the previous character was a digit. *)
Fixpoint parse_digits (acc : Z) (seen : bool) (s : string) : option Z :=
  match s with
  | EmptyString => if seen then Some acc else None
  | String c s' =>
      match digit_of c with
      | Some d => parse_digits (10 * acc + d) true s'
      | None =>
          if Ascii.eqb c "_" && seen then parse_digits acc false s' else None
      end
  end.

Definition parse_int (s : string) : option Z :=
  match strip s with
  | String "+" t => parse_digits 0 false t
  | String "-" t => option_map Z.opp (parse_digits 0 false t)
  | t => parse_digits 0 false t
  end.

Definition hex_digit (n : nat) : ascii :=
  ascii_of_nat (if n <? 10 then 48 + n else 87 + n).

Definition dquote : ascii := ascii_of_nat 34.
Definition squote : ascii := ascii_of_nat 39.
Definition backslash : ascii := ascii_of_nat 92.

Fixpoint contains (c : ascii) (s : string) : bool :=
  match s with
  | EmptyString => false
  | String d s' => Ascii.eqb c d || contains c s'
  end.

Fixpoint repr_body (q : ascii) (s : string) : string :=
  match s with
  | EmptyString => EmptyString
  | String c s' =>
      let n := nat_of_ascii c in
      let rest := repr_body q s' in
      if Ascii.eqb c q || Ascii.eqb c backslash then String backslash (String c rest)
      else if n =? 9 then String backslash (String "t" rest)
      else if n =? 10 then String backslash (String "n" rest)
      else if n =? 13 then String backslash (String "r" rest)
      else if (n <? 32) || (n =? 127) then
        String backslash
          (String "x" (String (hex_digit (n / 16)) (String (hex_digit (n mod 16)) rest)))
      else String c rest
  end.

(** [repr(s)] of a [str] *)
Definition py_repr (s : string) : string :=
  let q := if contains squote s && negb (contains dquote s) then dquote else squote in
  String q (repr_body q s ++ String q EmptyString).

(** [int(v)] *)
Definition py_int (c : cell) : result Z :=
  match c with
  | CNone =>
      Raise "int() argument must be a string, a bytes-like object or a real number, not 'NoneType'"
  | CBool b => Ok (if b then 1%Z else 0%Z)
  | CInt z => Ok z
  | CStr s =>
      match parse_int s with
      | Some z => Ok z
      | None => Raise ("invalid literal for int() with base 10: " ++ py_repr s)
      end
  | COther _ _ r => r
  end.

(** ** Data model *)

(** [@dataclass class Product] *)
Record Product : Type := mkProduct {
  cliente : string;
  produto : string;
  quantidade : Z;
  categoria : string
}.

(** One entry of [stats["erros_detalhados"]]: the dict with keys
    ["linha"], ["produto"] and ["erro"].  The ["produto"] entry holds a raw
    cell value (or a [str] literal). *)
Record ErroDetalhado : Type := mkErro {
  d_linha : nat;
  d_produto : cell;
  d_erro : string
}.

(** The [stats] dict of [processar_planilha]. *)
Record Stats : Type := mkStats {
  total : nat;
  sucesso : nat;
  erro : nat;
  erros_detalhados : list ErroDetalhado
}.

(** The fields of a [SeleniumAutomation] object the methods below read:
    [progress_callback] and [driver] tell whether the attribute is set. *)
Record SeleniumAutomation : Type := mkAutomation {
  url : string;
  progress_callback : bool;
  driver : bool
}.

(** Calls that leave the program. *)
Inductive action : Type :=
| Callback (message : string) (current total : nat)
| Get (url : string)
| LoadWorkbook (filepath : string)
| ClickClear
| FillText (field_id value : string)
| SelectValue (value : string)
| ClickSave
| Quit.

(** The mutable state: the calls made so far, the [stats] dict under
    construction, and the two attributes of the GUI object that the worker
    and the stop button share. *)
Record world : Type := mkWorld {
  trace : list action;
  stats : Stats;
  automation : option SeleniumAutomation;
  is_running : bool
}.

Definition set_trace (t : list action) (w : world) : world :=
  mkWorld t (stats w) (automation w) (is_running w).

Definition set_stats (s : Stats) (w : world) : world :=
  mkWorld (trace w) s (automation w) (is_running w).

Definition set_automation (a : option SeleniumAutomation) (w : world) : world :=
  mkWorld (trace w) (stats w) a (is_running w).

Definition set_is_running (b : bool) (w : world) : world :=
  mkWorld (trace w) (stats w) (automation w) b.

(** [stats["total"] = n] *)
Definition with_total (n : nat) (s : Stats) : Stats :=
  mkStats n (sucesso s) (erro s) (erros_detalhados s).

(** [stats["sucesso"] += 1] *)
Definition inc_sucesso (s : Stats) : Stats :=
  mkStats (total s) (sucesso s + 1) (erro s) (erros_detalhados s).

(** [stats["erro"] += 1] *)
Definition inc_erro (s : Stats) : Stats :=
  mkStats (total s) (sucesso s) (erro s + 1) (erros_detalhados s).

(** [stats["erros_detalhados"].append(d)] *)
Definition append_erro (d : ErroDetalhado) (s : Stats) : Stats :=
  mkStats (total s) (sucesso s) (erro s) (erros_detalhados s ++ [d]).

(** ** State and exceptions *)

Definition M (A : Type) : Type := world -> result A * world.

Definition ret {A : Type} (a : A) : M A := fun w => (Ok a, w).

Definition bind {A B : Type} (m : M A) (k : A -> M B) : M B :=
  fun w =>
    match m w with
    | (Ok a, w') => k a w'
    | (Raise e, w') => (Raise e, w')
    end.

Definition raise {A : Type} (e : string) : M A := fun w => (Raise e, w).

(** [try: m / except Exception as e: h e] *)
Definition try_except {A : Type} (m : M A) (h : string -> M A) : M A :=
  fun w =>
    match m w with
    | (Ok a, w') => (Ok a, w')
    | (Raise e, w') => h e w'
    end.

(** [try: m / finally: f] *)
Definition try_finally {A : Type} (m : M A) (f : M unit) : M A :=
  fun w =>
    match m w with
    | (r, w') =>
        match f w' with
        | (Ok _, w'') => (r, w'')
        | (Raise e, w'') => (Raise e, w'')
        end
    end.

Definition lift {A : Type} (r : result A) : M A := fun w => (r, w).

Definition get_stats : M Stats := fun w => (Ok (stats w), w).

Definition modify_stats (f : Stats -> Stats) : M unit :=
  fun w => (Ok tt, set_stats (f (stats w)) w).

Notation "x <- m ;; k" := (bind m (fun x => k))
  (at level 61, m at next level, right associativity).
Notation "m ;; k" := (bind m (fun _ => k))
  (at level 61, right associativity).

(** ** The automation engine *)

Section Engine.

(** Whether a call raises, given the calls made before it: [None] when it
    returns, [Some msg] when it raises an exception with message [msg]. *)
Variable raises : list action -> action -> option string.

(** The rows of the active sheet of the workbook at a path, header
    included: [list(ws.iter_rows(values_only=True))]. *)
Variable workbook : string -> list row.

Definition perform (a : action) : M unit :=
  fun w =>
    match raises (trace w) a with
    | None => (Ok tt, set_trace (trace w ++ [a]) w)
    | Some e => (Raise e, set_trace (trace w ++ [a]) w)
    end.

Definition _report_progress (self : SeleniumAutomation)
    (message : string) (current total : nat) : M unit :=
  if progress_callback self then perform (Callback message current total)
  else ret tt.

Definition navigate (self : SeleniumAutomation) : M unit :=
  _report_progress self ("Acessando " ++ url self) 0 0 ;;
  perform (Get (url self)).

(** The [except] clauses of the next three methods log and re-raise. *)
Definition _fill_campo_texto (field_id value : string) : M unit :=
  try_except (perform (FillText field_id value)) (fun e => raise e).

Definition _select_categoria (categoria : string) : M unit :=
  try_except (perform (SelectValue categoria)) (fun e => raise e).

Definition _submit_form : M unit :=
  try_except (perform ClickSave) (fun e => raise e).

Definition _limpar_form : M unit :=
  try_except (perform ClickClear) (fun _ => ret tt).

Definition preencher_produto (product : Product) : M bool :=
  try_except
    (_limpar_form ;;
     _fill_campo_texto "cliente" (cliente product) ;;
     _fill_campo_texto "produto" (produto product) ;;
     _fill_campo_texto "quantidade" (str_of_Z (quantidade product)) ;;
     _select_categoria (categoria product) ;;
     _submit_form ;;
     ret true)
    (fun _ => ret false).

(** [a, b, c, d = l] *)
Definition unpack4 (l : list cell) : result (cell * cell * cell * cell) :=
  match l with
  | [a; b; c; d] => Ok (a, b, c, d)
  | _ =>
      if length l <? 4 then
        Raise ("not enough values to unpack (expected 4, got "
               ++ str_of_nat (length l) ++ ")")
      else Raise "too many values to unpack (expected 4)"
  end.

(** Lines 190-199: the presence check and the construction of the
    [Product]. *)
Definition validar (c p q k : cell) : result Product :=
  if negb (py_all [c; p; q; k]) then Raise "Campos obrigatórios vazios"
  else
    match py_int q with
    | Ok n => Ok (mkProduct (strip (py_str c)) (strip (py_str p)) n (strip (py_str k)))
    | Raise e => Raise e
    end.

(** [not row or not row[0]] *)
Definition is_blank (r : row) : bool :=
  match r with
  | [] => true
  | c :: _ => negb (truthy c)
  end.

(** [row[1] if len(row) > 1 else "Desconhecido"] *)
Definition row_label (r : row) : cell :=
  match r with
  | _ :: p :: _ => p
  | _ => CStr "Desconhecido"
  end.

(** The body of the [for index, row in enumerate(rows, 1)] loop. *)
Definition loop_body (self : SeleniumAutomation) (index : nat) (r : row) : M unit :=
  if is_blank r then ret tt
  else
    try_except
      (x <- lift (unpack4 (firstn 4 r)) ;;
       let '(c, p, q, k) := x in
       product <- lift (validar c p q k) ;;
       st <- get_stats ;;
       _report_progress self
         ("Processando: " ++ cliente product ++ " - " ++ produto product)
         index (total st) ;;
       ok <- preencher_produto product ;;
       if ok then modify_stats inc_sucesso
       else
         modify_stats inc_erro ;;
         modify_stats (append_erro (mkErro (index + 1) p "Falha ao submeter")))
      (fun e =>
         modify_stats inc_erro ;;
         modify_stats (append_erro (mkErro (index + 1) (row_label r) e))).

Fixpoint for_rows (self : SeleniumAutomation) (index : nat) (rows : list row) : M unit :=
  match rows with
  | [] => ret tt
  | r :: rest => loop_body self index r ;; for_rows self (S index) rest
  end.

Definition load_rows (filepath : string) : M (list row) :=
  perform (LoadWorkbook filepath) ;;
  ret (tl (workbook filepath)).

Definition report_done (self : SeleniumAutomation) : M unit :=
  st <- get_stats ;;
  _report_progress self
    ("Processamento concluído: " ++ str_of_nat (sucesso st) ++ " sucesso, "
     ++ str_of_nat (erro st) ++ " erros") 0 0.

Definition critical (e : string) : M unit :=
  modify_stats (append_erro (mkErro 0 (CStr "ERRO CRÍTICO") e)).

Definition processar_planilha (self : SeleniumAutomation) (filepath : string) : M Stats :=
  modify_stats (fun _ => mkStats 0 0 0 []) ;;
  try_except
    (navigate self ;;
     rows <- load_rows filepath ;;
     modify_stats (with_total (length rows)) ;;
     _report_progress self
       ("Iniciando processamento de " ++ str_of_nat (length rows) ++ " produtos") 0 0 ;;
     for_rows self 1 rows ;;
     report_done self)
    critical ;;
  get_stats.

Definition fechar (self : SeleniumAutomation) : M unit :=
  if driver self then perform Quit else ret tt.

(** *** The GUI methods that share the automation object

    [_run_automation] runs on a worker thread and [_stop_automation] on the
    UI thread.  The widget updates of both are left out, and
    [_run_automation] starts from the [SeleniumAutomation] object its first
    statement constructs. *)

Definition assign_automation (a : option SeleniumAutomation) : M unit :=
  fun w => (Ok tt, set_automation a w).

Definition assign_is_running (b : bool) : M unit :=
  fun w => (Ok tt, set_is_running b w).

(** [_run_automation] around a given engine call, so that the same text
    serves the plain run and the interleaved one below. *)
Definition run_automation_of (engine : M Stats) (a : SeleniumAutomation) : M unit :=
  try_finally
    (try_except
       (assign_automation (Some a) ;;
        try_finally
          (engine ;; ret tt)
          (fechar a ;; assign_automation None))
       (fun _ => ret tt))
    (assign_is_running false).

Definition _run_automation (a : SeleniumAutomation) (file_path : string) : M unit :=
  run_automation_of (processar_planilha a file_path) a.

Definition _stop_automation : M unit :=
  fun w =>
    match automation w with
    | Some a =>
        (fechar a ;; assign_automation None ;; assign_is_running false) w
    | None => (Ok tt, w)
    end.

(** *** Interleaving at a row boundary

    A step of the UI thread between two iterations of the worker's loop:
    its effects on the shared state happen, its exceptions stay on its own
    thread. *)
Definition on_ui_thread (m : M unit) : M unit :=
  fun w => (Ok tt, snd (m w)).

(** [processar_planilha] with the UI-thread step [ui] scheduled after the
    first [k] iterations of the loop. *)
Definition processar_planilha_interleaved (ui : M unit) (k : nat)
    (self : SeleniumAutomation) (filepath : string) : M Stats :=
  modify_stats (fun _ => mkStats 0 0 0 []) ;;
  try_except
    (navigate self ;;
     rows <- load_rows filepath ;;
     modify_stats (with_total (length rows)) ;;
     _report_progress self
       ("Iniciando processamento de " ++ str_of_nat (length rows) ++ " produtos") 0 0 ;;
     for_rows self 1 (firstn k rows) ;;
     on_ui_thread ui ;;
     for_rows self (1 + k) (skipn k rows) ;;
     report_done self)
    critical ;;
  get_stats.

(** The worker's [_run_automation] with the stop button pressed after the
    first [k] rows. *)
Definition run_automation_stopped (k : nat) (a : SeleniumAutomation)
    (file_path : string) : M unit :=
  run_automation_of (processar_planilha_interleaved _stop_automation k a file_path) a.

End Engine.

(** *** The context manager and the console harness

    [__enter__] and [__exit__] of [SeleniumAutomation], and the [with]
    statement of [test_automation.main] (lines 39-43) that uses them; the
    console output of the harness is left out. *)

Section Console.

Variable raises : list action -> action -> option string.
Variable workbook : string -> list row.

Definition __enter__ (self : SeleniumAutomation) : M SeleniumAutomation :=
  ret self.

Definition __exit__ (self : SeleniumAutomation) : M unit :=
  fechar raises self.

(** [with cm as x: body x]: [__exit__] runs whether the body returns or
    raises; it returns [None], so an exception of the body goes on. *)
Definition with_as {A : Type} (cm : SeleniumAutomation)
    (body : SeleniumAutomation -> M A) : M A :=
  x <- __enter__ cm ;;
  try_finally (body x) (__exit__ cm).

Definition main_with (a : SeleniumAutomation) (excel_file : string) : M Stats :=
  with_as a (fun automation => processar_planilha raises workbook automation excel_file).

End Console.

(** ** Vocabulary of the statements *)

(** Lines 188-199 as one pure function of the row. *)
Definition parse_row (r : row) : result Product :=
  match unpack4 (firstn 4 r) with
  | Ok (c, p, q, k) => validar c p q k
  | Raise e => Raise e
  end.

Definition count_nonblank (rows : list row) : nat :=
  length (filter (fun r => negb (is_blank r)) rows).

Definition count_blank (rows : list row) : nat :=
  length (filter is_blank rows).

(** The products of the rows that are neither blank nor rejected. *)
Fixpoint valid_products (rows : list row) : list Product :=
  match rows with
  | [] => []
  | r :: rest =>
      if is_blank r then valid_products rest
      else
        match parse_row r with
        | Ok p => p :: valid_products rest
        | Raise _ => valid_products rest
        end
  end.

(** A row the loop accepts: not blank, and a [Product] is built from it. *)
Definition valid_row (r : row) : Prop :=
  is_blank r = false /\ exists p, parse_row r = Ok p.

(** The calls [preencher_produto] makes after clearing the form. *)
Definition fill_actions (p : Product) : list action :=
  [FillText "cliente" (cliente p);
   FillText "produto" (produto p);
   FillText "quantidade" (str_of_Z (quantidade p));
   SelectValue (categoria p);
   ClickSave].

Definition form_actions (p : Product) : list action :=
  ClickClear :: fill_actions p.

(** Replays a sequence of calls from history [h] until one raises:
    the history reached, and the message of the call that raised. *)
Fixpoint attempt (raises : list action -> action -> option string)
    (h : list action) (acts : list action) : list action * option string :=
  match acts with
  | [] => (h, None)
  | a :: rest =>
      match raises h a with
      | None => attempt raises (h ++ [a]) rest
      | Some e => (h ++ [a], Some e)
      end
  end.

Definition is_form_call (a : action) : bool :=
  match a with
  | ClickClear | FillText _ _ | SelectValue _ | ClickSave => true
  | _ => false
  end.

(** The calls made on the form, in the order they were made. *)
Definition form_calls (t : list action) : list action := filter is_form_call t.

Definition is_submit (a : action) : bool :=
  match a with ClickSave => true | _ => false end.

Definition count_submits (t : list action) : nat := length (filter is_submit t).

Definition is_quit (a : action) : bool :=
  match a with Quit => true | _ => false end.

Definition count_quits (t : list action) : nat := length (filter is_quit t).

(** The values typed into the [cliente] field, one per driven record. *)
Fixpoint cliente_fills (t : list action) : list string :=
  match t with
  | [] => []
  | FillText f v :: rest =>
      if String.eqb f "cliente" then v :: cliente_fills rest else cliente_fills rest
  | _ :: rest => cliente_fills rest
  end.

(** The world after further calls were recorded. *)
Definition emit (evs : list action) (w : world) : world :=
  set_trace (trace w ++ evs) w.

(** The [stats] update of a failed row: lines 210-211 and 218-219. *)
Definition record_failure (d : ErroDetalhado) (s : Stats) : Stats :=
  append_erro d (inc_erro s).

(** What [_report_progress] adds to the trace. *)
Definition progress_events (self : SeleniumAutomation)
    (m : string) (c t : nat) : list action :=
  if progress_callback self then [Callback m c t] else [].

(** What one iteration of the loop does to [stats]. *)
Inductive outcome (index : nat) (r : row) (s s' : Stats) : Prop :=
| skipped :
    is_blank r = true -> s' = s -> outcome index r s s'
| succeeded (p : Product) :
    is_blank r = false -> parse_row r = Ok p -> s' = inc_sucesso s ->
    outcome index r s s'
| rejected (e : string) :
    is_blank r = false -> parse_row r = Raise e ->
    s' = record_failure (mkErro (index + 1) (row_label r) e) s ->
    outcome index r s s'
| failed (p : Product) (e : string) :
    is_blank r = false -> parse_row r = Ok p ->
    s' = record_failure (mkErro (index + 1) (row_label r) e) s ->
    outcome index r s s'.

(** The iterations over a list of rows, chained. *)
Inductive outcomes : nat -> list row -> Stats -> Stats -> Prop :=
| outcomes_nil index s : outcomes index [] s s
| outcomes_cons index r rest s s1 s2 :
    outcome index r s s1 -> outcomes (S index) rest s1 s2 ->
    outcomes index (r :: rest) s s2.

(** The progress message of a record. *)
Definition processando (p : Product) : string :=
  "Processando: " ++ cliente p ++ " - " ++ produto p.

(** [w'] differs from [w] by progress events, navigation and loading
    only: same GUI attributes, same calls on the form, same number of
    [quit] calls. *)
Definition quiet_extension (w w' : world) : Prop :=
  automation w' = automation w /\
  is_running w' = is_running w /\
  form_calls (trace w') = form_calls (trace w) /\
  count_quits (trace w') = count_quits (trace w).

(** The world in which the loop starts when navigation, loading and the
    first progress report all return: lines 164-181. *)
Definition started (workbook : string -> list row)
    (self : SeleniumAutomation) (filepath : string) (w : world) : world :=
  let n := length (tl (workbook filepath)) in
  emit (progress_events self
          ("Iniciando processamento de " ++ str_of_nat n ++ " produtos") 0 0)
    (set_stats (mkStats n 0 0 [])
       (emit (progress_events self ("Acessando " ++ url self) 0 0
              ++ [Get (url self); LoadWorkbook filepath]) w)).

(** The world after the closing progress report: lines 226-228. *)
Definition finished (self : SeleniumAutomation) (w : world) : world :=
  emit (progress_events self
          ("Processamento concluído: " ++ str_of_nat (sucesso (stats w))
           ++ " sucesso, " ++ str_of_nat (erro (stats w)) ++ " erros") 0 0) w.

(** The progress sink never raises. *)
Definition sink_quiet (raises : list action -> action -> option string) : Prop :=
  forall h m c t, raises h (Callback m c t) = None.

(** Navigation and the loading of the workbook succeed. *)
Definition opens (raises : list action -> action -> option string) : Prop :=
  (forall h u, raises h (Get u) = None) /\
  (forall h f, raises h (LoadWorkbook f) = None).

Definition always_succeeds (raises : list action -> action -> option string) : Prop :=
  forall h a, raises h a = None.

(** The calls of the lines before the loop: progress reports without
    counters, the navigation and the loading of the workbook. *)
Definition setup_event (a : action) : Prop :=
  (exists m, a = Callback m 0 0) \/ (exists u, a = Get u) \/
  (exists f, a = LoadWorkbook f).

(** The calls of the loop over [n] data rows and of the closing report:
    calls on the form, progress reports of a row between 1 and [n] against
    the total [n], and reports without counters. *)
Definition run_event (n : nat) (a : action) : Prop :=
  is_form_call a = true \/
  (exists m c, a = Callback m c n /\ 1 <= c /\ c <= n) \/
  (exists m, a = Callback m 0 0).

(** The calls of the iterations [index], ..., [index + len - 1] when the
    total is [t]. *)
Definition row_event (index len t : nat) (a : action) : Prop :=
  is_form_call a = true \/
  (exists m c, a = Callback m c t /\ index <= c /\ c < index + len).

Definition is_get (a : action) : bool :=
  match a with Get _ => true | _ => false end.

Definition count_gets (t : list action) : nat := length (filter is_get t).

(** [w'] is [w] after the calls [evs], the GUI attributes unchanged. *)
Definition extends (evs : list action) (w w' : world) : Prop :=
  trace w' = trace w ++ evs /\
  automation w' = automation w /\
  is_running w' = is_running w.

(** The entry the outer [except] clause appends: lines 232-236. *)
Definition critical_entry (e : string) : ErroDetalhado :=
  mkErro 0 (CStr "ERRO CRÍTICO") e.

Definition first_is_space (s : string) : bool :=
  match s with
  | EmptyString => false
  | String c _ => is_space c
  end.

Fixpoint last_is_space (s : string) : bool :=
  match s with
  | EmptyString => false
  | String c EmptyString => is_space c
  | String _ t => last_is_space t
  end.

(** Neither the first nor the last character is whitespace. *)
Definition trimmed (s : string) : Prop :=
  first_is_space s = false /\ last_is_space s = false.

Definition is_callback (a : action) : bool :=
  match a with Callback _ _ _ => true | _ => false end.

(** The calls other than progress reports. *)
Definition no_callbacks (t : list action) : list action :=
  filter (fun a => negb (is_callback a)) t.

(** Collaborators whose behaviour does not depend on the progress reports
    made so far. *)
Definition blind (raises : list action -> action -> option string) : Prop :=
  forall h a, raises h a = raises (no_callbacks h) a.

(** Same counters of successes and failures, same failure entries. *)
Definition same_outcome (s1 s2 : Stats) : Prop :=
  sucesso s1 = sucesso s2 /\ erro s1 = erro s2 /\
  erros_detalhados s1 = erros_detalhados s2.

(** Two worlds that differ by progress reports and by [total] only. *)
Definition alike (w1 w2 : world) : Prop :=
  no_callbacks (trace w1) = no_callbacks (trace w2) /\
  same_outcome (stats w1) (stats w2).

(** ** Sample collaborators and sheets *)

Definition never_raises : list action -> action -> option string :=
  fun _ _ => None.

Definition submit_raises (msg : string) : list action -> action -> option string :=
  fun _ a => match a with ClickSave => Some msg | _ => None end.

Definition get_raises (msg : string) : list action -> action -> option string :=
  fun _ a => match a with Get _ => Some msg | _ => None end.

(** A browser whose session is gone once [quit] was called on it. *)
Definition dead_after_quit : list action -> action -> option string :=
  fun h a =>
    if is_form_call a && existsb is_quit h then Some "invalid session id"
    else None.

(** The first [cliente] field ever filled raises; everything else works. *)
Definition first_fill_raises : list action -> action -> option string :=
  fun h a =>
    match a with
    | FillText _ _ =>
        match cliente_fills h with
        | [] => Some "no such element"
        | _ => None
        end
    | _ => None
    end.

Definition header : row :=
  [CStr "Cliente"; CStr "Produto"; CStr "Quantidade"; CStr "Categoria"].

Definition row_ana : row := [CStr "Ana"; CStr "Mesa"; CInt 2; CStr "Moveis"].
Definition row_bia : row := [CStr " Bia "; CStr "Livro"; CStr "3"; CStr "Livros"].
Definition row_caio : row := [CStr "Caio"; CStr "Bola"; CInt 1; CStr "Esportes"].
Definition row_blank : row := [CNone; CNone; CNone; CNone].
Definition row_no_category : row := [CStr "Davi"; CStr "Vaso"; CInt 5; CNone].
Definition row_zero : row := [CStr "Eva"; CStr "Suco"; CInt 0; CStr "Bebidas"].
Definition row_spaces : row := [CStr "  "; CStr "Mesa"; CInt 2; CStr "Moveis"].
Definition row_bad_quantity : row := [CStr "Gil"; CStr "Sofa"; CStr "dois"; CStr "Moveis"].

Definition book (rows : list row) : string -> list row := fun _ => header :: rows.

Definition robot : SeleniumAutomation :=
  mkAutomation "https://devaprender-contabil.netlify.app/" true true.

Definition fresh : world := mkWorld [] (mkStats 0 0 0 []) None false.

Definition clear_raises (msg : string) : list action -> action -> option string :=
  fun _ a => match a with ClickClear => Some msg | _ => None end.

Definition load_raises (msg : string) : list action -> action -> option string :=
  fun _ a => match a with LoadWorkbook _ => Some msg | _ => None end.

Definition quit_raises (msg : string) : list action -> action -> option string :=
  fun _ a => match a with Quit => Some msg | _ => None end.

Definition row_short : row := [CStr "Hugo"; CStr "Mala"].
Definition row_single : row := [CStr "Iara"].
Definition row_ana_wide : row :=
  [CStr "Ana"; CStr "Mesa"; CInt 2; CStr "Moveis"; CStr "obs"; CNone; CInt 7].

(** ** Properties *)

(** *** The built-ins on sample values *)

Example py_int_plain : py_int (CStr " 12 ") = Ok 12%Z.
Proof. reflexivity. Qed.

Example py_int_underscore : py_int (CStr "-1_000") = Ok (-1000)%Z.
Proof. reflexivity. Qed.

Example py_int_bad :
  py_int (CStr "abc") = Raise "invalid literal for int() with base 10: 'abc'".
Proof. reflexivity. Qed.

Example py_int_double_underscore :
  py_int (CStr "1__0") = Raise "invalid literal for int() with base 10: '1__0'".
Proof. reflexivity. Qed.

Example strip_both : strip "  a b  " = "a b".
Proof. reflexivity. Qed.

Example str_of_Z_neg : str_of_Z (-305) = "-305".
Proof. reflexivity. Qed.

(** *** Worlds *)

Lemma emit_nil w : emit [] w = w.
Proof. destruct w; unfold emit, set_trace; simpl; now rewrite app_nil_r. Qed.

Lemma emit_emit a b w : emit b (emit a w) = emit (a ++ b) w.
Proof. unfold emit, set_trace; simpl; now rewrite app_assoc. Qed.

Lemma set_trace_emit w h evs : h = trace w ++ evs -> set_trace h w = emit evs w.
Proof. intros ->; reflexivity. Qed.

Section Properties.

Variable raises : list action -> action -> option string.
Variable workbook : string -> list row.

Lemma perform_run a w :
  perform raises a w =
  (match raises (trace w) a with None => Ok tt | Some e => Raise e end,
   emit [a] w).
Proof. unfold perform, emit; now destruct (raises (trace w) a). Qed.

Lemma report_progress_quiet self m c t w :
  sink_quiet raises ->
  _report_progress raises self m c t w = (Ok tt, emit (progress_events self m c t) w).
Proof.
  intros Hq; unfold _report_progress, progress_events.
  destruct (progress_callback self).
  - now rewrite perform_run, Hq.
  - now rewrite emit_nil.
Qed.

(** *** Driving one record *)

Lemma attempt_extends h acts :
  exists done rest,
    acts = done ++ rest /\
    fst (attempt raises h acts) = h ++ done /\
    (snd (attempt raises h acts) = None -> rest = []) /\
    (forall a l, acts = a :: l -> exists more, done = a :: more).
Proof.
  revert h; induction acts as [|a tl_acts IH]; intros h; simpl.
  - exists [], []; simpl; rewrite app_nil_r; repeat split; auto; intros; discriminate.
  - destruct (raises h a) as [e|].
    + exists [a], tl_acts; simpl; repeat split; try discriminate.
      intros a' r' E; inversion E; subst; now exists [].
    + destruct (IH (h ++ [a])) as (done & rest & Ha & Hf & Hs & _).
      exists (a :: done), rest; rewrite Hf, <- app_assoc; simpl; repeat split.
      * now rewrite Ha at 1.
      * exact Hs.
      * intros a' r' E; inversion E; subst; now exists done.
Qed.

Lemma attempt_all_fine h acts :
  always_succeeds raises -> attempt raises h acts = (h ++ acts, None).
Proof.
  intros Ha; revert h; induction acts as [|a rest IH]; intros h; simpl.
  - now rewrite app_nil_r.
  - rewrite Ha, IH, <- app_assoc; reflexivity.
Qed.

Lemma preencher_produto_run p w :
  preencher_produto raises p w =
  (Ok (match snd (attempt raises (trace w ++ [ClickClear]) (fill_actions p)) with
       | None => true
       | Some _ => false
       end),
   set_trace (fst (attempt raises (trace w ++ [ClickClear]) (fill_actions p))) w).
Proof.
  unfold preencher_produto, _limpar_form, _fill_campo_texto, _select_categoria,
    _submit_form, try_except, bind, perform, ret, raise, fill_actions.
  simpl.
  destruct (raises (trace w) ClickClear); simpl;
    repeat (match goal with
            | |- context [raises ?h ?a] => destruct (raises h a); simpl
            end); reflexivity.
Qed.

(** *** One iteration of the loop *)

Lemma unpack4_label (r : row) c p q k :
  unpack4 (firstn 4 r) = Ok (c, p, q, k) -> row_label r = p.
Proof.
  destruct r as [|a [|b [|x [|y rest]]]]; simpl; try discriminate.
  now intros [= _ <- _ _].
Qed.

Lemma loop_body_blank self index r w :
  is_blank r = true -> loop_body raises self index r w = (Ok tt, w).
Proof. intros Hb; unfold loop_body; now rewrite Hb. Qed.

Lemma loop_body_rejected self index r w e :
  is_blank r = false -> parse_row r = Raise e ->
  loop_body raises self index r w =
  (Ok tt, set_stats (record_failure (mkErro (index + 1) (row_label r) e) (stats w)) w).
Proof.
  intros Hb Hp; unfold loop_body, parse_row in *; rewrite Hb.
  unfold try_except, bind, lift.
  destruct (unpack4 (firstn 4 r)) as [[[[c p] q] k]|m].
  - rewrite Hp; reflexivity.
  - injection Hp as ->; reflexivity.
Qed.

Lemma loop_body_valid self index r w p :
  is_blank r = false -> parse_row r = Ok p ->
  loop_body raises self index r w =
  match _report_progress raises self (processando p) index (total (stats w)) w with
  | (Raise e, w1) =>
      (Ok tt, set_stats (record_failure (mkErro (index + 1) (row_label r) e) (stats w1)) w1)
  | (Ok _, w1) =>
      let run := attempt raises (trace w1 ++ [ClickClear]) (fill_actions p) in
      match snd run with
      | None => (Ok tt, set_stats (inc_sucesso (stats w1)) (set_trace (fst run) w1))
      | Some _ =>
          (Ok tt,
           set_stats
             (record_failure (mkErro (index + 1) (row_label r) "Falha ao submeter") (stats w1))
             (set_trace (fst run) w1))
      end
  end.
Proof.
  intros Hb Hp; unfold loop_body, parse_row in *; rewrite Hb.
  unfold try_except at 1; unfold bind at 1; unfold lift at 1.
  destruct (unpack4 (firstn 4 r)) as [[[[c x] q] k]|m] eqn:Hu; [|discriminate].
  rewrite (unpack4_label _ _ _ _ _ Hu).
  unfold bind at 1; unfold lift at 1; rewrite Hp.
  unfold bind at 1; unfold get_stats at 1.
  unfold bind at 1; fold (processando p).
  destruct (_report_progress raises self (processando p) index (total (stats w)) w)
    as [[[]|e] w1]; [|reflexivity].
  unfold bind at 1; rewrite preencher_produto_run; cbv zeta.
  destruct (snd (attempt raises (trace w1 ++ [ClickClear]) (fill_actions p))); reflexivity.
Qed.

Lemma count_quits_app t1 t2 :
  count_quits (t1 ++ t2) = count_quits t1 + count_quits t2.
Proof. unfold count_quits; now rewrite filter_app, length_app. Qed.

Lemma attempt_no_quit h p :
  exists done,
    fst (attempt raises h (fill_actions p)) = h ++ done /\ count_quits done = 0.
Proof.
  destruct (attempt_extends h (fill_actions p)) as (done & rest & Ha & Hf & _).
  exists done; split; [exact Hf|].
  assert (H : count_quits (done ++ rest) = 0) by (rewrite <- Ha; reflexivity).
  rewrite count_quits_app in H; lia.
Qed.

(** An iteration never raises; it changes nothing but the trace and the
    counters, and it never quits the browser. *)
Lemma loop_body_returns self index r w :
  exists w',
    loop_body raises self index r w = (Ok tt, w') /\
    outcome index r (stats w) (stats w') /\
    automation w' = automation w /\
    is_running w' = is_running w /\
    count_quits (trace w') = count_quits (trace w).
Proof.
  destruct (is_blank r) eqn:Hb.
  - exists w; rewrite loop_body_blank by assumption.
    repeat split; now apply skipped.
  - destruct (parse_row r) as [p|e] eqn:Hp.
    + rewrite (loop_body_valid _ _ _ _ p) by assumption.
      unfold _report_progress.
      assert (Hcb : forall w1 evs, w1 = emit evs w -> count_quits evs = 0 ->
        exists w',
          (let run := attempt raises (trace w1 ++ [ClickClear]) (fill_actions p) in
           match snd run with
           | None => (Ok tt, set_stats (inc_sucesso (stats w1)) (set_trace (fst run) w1))
           | Some _ =>
               (Ok tt,
                set_stats
                  (record_failure (mkErro (index + 1) (row_label r) "Falha ao submeter")
                     (stats w1))
                  (set_trace (fst run) w1))
           end) = (Ok tt, w') /\
          outcome index r (stats w) (stats w') /\
          automation w' = automation w /\
          is_running w' = is_running w /\
          count_quits (trace w') = count_quits (trace w)).
      { intros w1 evs -> Hevs; cbv zeta.
        destruct (attempt_no_quit (trace (emit evs w) ++ [ClickClear]) p)
          as (done & Hf & Hd).
        rewrite Hf.
        destruct (snd (attempt raises _ _)); eexists; (split; [reflexivity|]); simpl;
          repeat split;
          try (rewrite !count_quits_app, Hd, Hevs; simpl; unfold count_quits; simpl; lia).
        - now apply (failed _ _ _ _ p "Falha ao submeter").
        - now apply (succeeded _ _ _ _ p). }
      destruct (progress_callback self).
      * rewrite perform_run.
        destruct (raises (trace w) _) as [e|].
        -- eexists; split; [reflexivity|]; simpl; repeat split.
           ++ now apply (failed _ _ _ _ p e).
           ++ rewrite count_quits_app; unfold count_quits; simpl; lia.
        -- eapply Hcb; [reflexivity|reflexivity].
      * unfold ret; apply (Hcb w []); [now rewrite emit_nil|reflexivity].
    + rewrite (loop_body_rejected _ _ _ _ e) by assumption.
      eexists; split; [reflexivity|]; simpl; repeat split.
      now apply (rejected _ _ _ _ e).
Qed.

(** *** The loop *)

Lemma for_rows_returns self rows : forall index w,
  exists w',
    for_rows raises self index rows w = (Ok tt, w') /\
    outcomes index rows (stats w) (stats w') /\
    automation w' = automation w /\
    is_running w' = is_running w /\
    count_quits (trace w') = count_quits (trace w).
Proof.
  induction rows as [|r rest IH]; intros index w; simpl.
  - exists w; repeat split; constructor.
  - destruct (loop_body_returns self index r w) as (w1 & Hr & Ho & Ha & Hi & Hq).
    destruct (IH (S index) w1) as (w2 & Hr2 & Ho2 & Ha2 & Hi2 & Hq2).
    exists w2; unfold bind; rewrite Hr, Hr2; repeat split; try congruence.
    econstructor; eassumption.
Qed.

Lemma for_rows_app self l1 l2 : forall index w,
  for_rows raises self index (l1 ++ l2) w =
  match for_rows raises self index l1 w with
  | (Ok _, w') => for_rows raises self (index + length l1) l2 w'
  | (Raise e, w') => (Raise e, w')
  end.
Proof.
  induction l1 as [|r rest IH]; intros index w; simpl.
  - now rewrite Nat.add_0_r.
  - unfold bind.
    destruct (loop_body raises self index r w) as [[[]|e] w1]; [|reflexivity].
    rewrite IH; now rewrite Nat.add_succ_r.
Qed.

(** *** Counters and failure entries along the loop *)

Lemma outcomes_counts index rows s s' :
  outcomes index rows s s' ->
  total s' = total s /\
  sucesso s' + erro s' = sucesso s + erro s + count_nonblank rows.
Proof.
  unfold count_nonblank.
  induction 1 as [|index r rest s s1 s2 Ho _ [IHt IHc]]; simpl; [lia|].
  destruct Ho as [Hb ->|p Hb _ ->|e Hb _ ->|p e Hb _ ->]; rewrite Hb, IHt, IHc;
    simpl; lia.
Qed.

Lemma outcomes_failures index rows s s' :
  outcomes index rows s s' ->
  exists ds,
    erros_detalhados s' = erros_detalhados s ++ ds /\
    erro s' = erro s + length ds /\
    Forall (fun d => exists i r,
              nth_error rows i = Some r /\ is_blank r = false /\
              d_linha d = index + i + 1) ds /\
    StronglySorted lt (map d_linha ds) /\
    (forall i r e,
        nth_error rows i = Some r -> is_blank r = false -> parse_row r = Raise e ->
        In (mkErro (index + i + 1) (row_label r) e) ds).
Proof.
  induction 1 as [|index r rest s s1 s2 Ho _ (ds & He & Hn & Hf & Hs & Hr)].
  - exists []; rewrite app_nil_r; repeat split; auto; try constructor.
    intros [|i] r e; discriminate.
  - assert (Hshift : Forall (fun d => exists i r0,
              nth_error (r :: rest) i = Some r0 /\ is_blank r0 = false /\
              d_linha d = index + i + 1) ds).
    { eapply Forall_impl; [|exact Hf].
      intros d (i & r0 & Hi & Hb0 & Hl); exists (S i), r0; simpl.
      repeat split; auto; lia. }
    assert (Hlate : Forall (lt (index + 1)) (map d_linha ds)).
    { apply Forall_map; eapply Forall_impl; [|exact Hf].
      intros d (i & _ & _ & _ & Hl); simpl; lia. }
    assert (Hkeep : forall s0, erros_detalhados s0 = erros_detalhados s ->
              erro s0 = erro s -> s1 = s0 ->
              (forall e, parse_row r = Raise e -> is_blank r = false -> False) ->
              exists ds0,
                erros_detalhados s2 = erros_detalhados s ++ ds0 /\
                erro s2 = erro s + length ds0 /\
                Forall (fun d => exists i r0,
                          nth_error (r :: rest) i = Some r0 /\ is_blank r0 = false /\
                          d_linha d = index + i + 1) ds0 /\
                StronglySorted lt (map d_linha ds0) /\
                (forall i r0 e,
                    nth_error (r :: rest) i = Some r0 -> is_blank r0 = false ->
                    parse_row r0 = Raise e ->
                    In (mkErro (index + i + 1) (row_label r0) e) ds0)).
    { intros s0 E1 E2 -> Hno; exists ds; rewrite He, Hn, E1, E2.
      repeat split; auto.
      intros [|i] r0 e Hi Hb0 Hp; simpl in Hi.
      - injection Hi as <-; destruct (Hno e Hp Hb0).
      - replace (index + S i + 1) with (S index + i + 1) by lia; eauto. }
    assert (Hadd : forall d, s1 = record_failure d s -> d_linha d = index + 1 ->
              (forall e, parse_row r = Raise e -> d = mkErro (index + 1) (row_label r) e) ->
              is_blank r = false ->
              exists ds0,
                erros_detalhados s2 = erros_detalhados s ++ ds0 /\
                erro s2 = erro s + length ds0 /\
                Forall (fun d => exists i r0,
                          nth_error (r :: rest) i = Some r0 /\ is_blank r0 = false /\
                          d_linha d = index + i + 1) ds0 /\
                StronglySorted lt (map d_linha ds0) /\
                (forall i r0 e,
                    nth_error (r :: rest) i = Some r0 -> is_blank r0 = false ->
                    parse_row r0 = Raise e ->
                    In (mkErro (index + i + 1) (row_label r0) e) ds0)).
    { intros d -> Hl Hd Hb; exists (d :: ds); rewrite He, Hn; simpl.
      rewrite <- app_assoc; simpl; repeat split; try lia.
      - constructor; [|exact Hshift].
        exists 0, r; simpl; repeat split; auto; lia.
      - constructor; [exact Hs|]. rewrite Hl; exact Hlate.
      - intros [|i] r0 e Hi Hb0 Hp; simpl in Hi.
        + injection Hi as <-; left; rewrite (Hd e Hp); f_equal; lia.
        + right; replace (index + S i + 1) with (S index + i + 1) by lia; eauto. }
    destruct Ho as [Hb E|p Hb Hp E|e Hb Hp E|p e Hb Hp E].
    + apply (Hkeep s); auto; intros; congruence.
    + apply (Hkeep (inc_sucesso s)); auto; intros; congruence.
    + apply (Hadd _ E); auto; intros e' He'; congruence.
    + apply (Hadd _ E); auto; intros e' He'; congruence.
Qed.

(** *** The whole run *)

Lemma emit_quiet evs w :
  form_calls evs = [] -> count_quits evs = 0 -> quiet_extension w (emit evs w).
Proof.
  intros Hf Hq; unfold quiet_extension, emit; simpl.
  unfold form_calls in *; rewrite filter_app, Hf, app_nil_r, count_quits_app, Hq.
  repeat split; lia.
Qed.

Lemma progress_events_quiet self m c t :
  form_calls (progress_events self m c t) = [] /\
  count_quits (progress_events self m c t) = 0.
Proof. unfold progress_events; now destruct (progress_callback self). Qed.

Lemma bind_ok {A B : Type} (m : M A) (k : A -> M B) w a w' :
  m w = (Ok a, w') -> bind m k w = k a w'.
Proof. intros H; unfold bind; now rewrite H. Qed.

Lemma bind_raise {A B : Type} (m : M A) (k : A -> M B) w e w' :
  m w = (Raise e, w') -> bind m k w = (Raise e, w').
Proof. intros H; unfold bind; now rewrite H. Qed.

Lemma try_except_ok {A : Type} (m : M A) h w a w' :
  m w = (Ok a, w') -> try_except m h w = (Ok a, w').
Proof. intros H; unfold try_except; now rewrite H. Qed.

Lemma try_except_raise {A : Type} (m : M A) h w e w' :
  m w = (Raise e, w') -> try_except m h w = h e w'.
Proof. intros H; unfold try_except; now rewrite H. Qed.

Lemma world_eq w w' :
  trace w = trace w' -> stats w = stats w' -> automation w = automation w' ->
  is_running w = is_running w' -> w = w'.
Proof. destruct w, w'; simpl; intros; subst; reflexivity. Qed.

Lemma prologue_run self fp w :
  sink_quiet raises -> opens raises ->
  (navigate raises self ;;
   rows <- load_rows raises workbook fp ;;
   modify_stats (with_total (length rows)) ;;
   _report_progress raises self
     ("Iniciando processamento de " ++ str_of_nat (length rows) ++ " produtos") 0 0 ;;
   ret rows) (set_stats (mkStats 0 0 0 []) w)
  = (Ok (tl (workbook fp)), started workbook self fp w).
Proof.
  intros Hq [Hget Hload].
  unfold navigate, load_rows.
  erewrite bind_ok;
    [|erewrite bind_ok by (apply report_progress_quiet; exact Hq);
      rewrite perform_run, Hget; reflexivity].
  erewrite bind_ok;
    [|erewrite bind_ok by (rewrite perform_run, Hload; reflexivity); reflexivity].
  erewrite bind_ok by reflexivity.
  erewrite bind_ok by (apply report_progress_quiet; exact Hq).
  unfold ret; f_equal.
  apply world_eq; unfold started, emit; cbn [trace stats automation is_running set_trace set_stats];
    try reflexivity.
  now rewrite <- !app_assoc.
Qed.

Lemma report_done_run self w :
  sink_quiet raises -> report_done raises self w = (Ok tt, finished self w).
Proof.
  intros Hq; unfold report_done.
  erewrite bind_ok by reflexivity.
  now rewrite report_progress_quiet.
Qed.

Lemma started_stats self fp w :
  stats (started workbook self fp w) = mkStats (length (tl (workbook fp))) 0 0 [].
Proof. reflexivity. Qed.

Lemma started_quiet self fp w : quiet_extension w (started workbook self fp w).
Proof.
  unfold started, quiet_extension, emit;
    cbn [trace stats automation is_running set_trace set_stats].
  unfold form_calls; rewrite !count_quits_app, !filter_app.
  fold (form_calls (progress_events self ("Acessando " ++ url self) 0 0)).
  match goal with
  | |- context [filter is_form_call (progress_events ?a ?b ?c ?d)] =>
      fold (form_calls (progress_events a b c d))
  end.
  rewrite !(proj1 (progress_events_quiet _ _ _ _)),
          !(proj2 (progress_events_quiet _ _ _ _)).
  cbn [filter is_form_call app]; rewrite !app_nil_r.
  repeat split; unfold count_quits; cbn [filter is_quit length]; lia.
Qed.

Lemma finished_stats self w : stats (finished self w) = stats w.
Proof. reflexivity. Qed.

Lemma finished_quiet self w : quiet_extension w (finished self w).
Proof. apply emit_quiet; apply progress_events_quiet. Qed.

(** The interleaved run, once the prologue is through. *)
Lemma processar_planilha_interleaved_run ui k self fp w w2 w4 :
  sink_quiet raises -> opens raises ->
  for_rows raises self 1 (firstn k (tl (workbook fp))) (started workbook self fp w)
  = (Ok tt, w2) ->
  for_rows raises self (1 + k) (skipn k (tl (workbook fp))) (snd (ui w2)) = (Ok tt, w4) ->
  processar_planilha_interleaved raises workbook ui k self fp w
  = (Ok (stats w4), finished self w4).
Proof.
  intros Hq Ho H2 H4.
  pose proof (prologue_run self fp w Hq Ho) as Hp.
  unfold processar_planilha_interleaved.
  erewrite bind_ok by reflexivity.
  rewrite (bind_ok _ _ _ tt (finished self w4)); [reflexivity|].
  apply try_except_ok.
  revert Hp; unfold bind at 1 2 3 4 5 6 7 8.
  destruct (navigate raises self _) as [[[]|e] wa]; [|discriminate].
  destruct (load_rows raises workbook fp wa) as [[rows|e] wb]; [|discriminate].
  destruct (modify_stats _ wb) as [[[]|e] wc]; [|discriminate].
  destruct (_report_progress raises self _ 0 0 wc) as [[[]|e] wd]; [|discriminate].
  unfold ret; intros [= -> ->].
  unfold bind; rewrite H2; unfold on_ui_thread; rewrite H4.
  apply report_done_run; exact Hq.
Qed.

Lemma for_rows_split self rows k : forall w,
  (for_rows raises self 1 (firstn k rows) ;;
   for_rows raises self (1 + k) (skipn k rows)) w
  = for_rows raises self 1 rows w.
Proof.
  intros w.
  transitivity (for_rows raises self 1 (firstn k rows ++ skipn k rows) w);
    [|now rewrite firstn_skipn].
  rewrite for_rows_app; unfold bind.
  destruct (for_rows raises self 1 (firstn k rows) w) as [[[]|e] w1]; [|reflexivity].
  destruct (Nat.le_gt_cases k (length rows)) as [Hk|Hk].
  - now rewrite firstn_length_le by exact Hk.
  - rewrite skipn_all2 by lia; reflexivity.
Qed.

Lemma bind_ext {A B : Type} (m : M A) (k1 k2 : A -> M B) w :
  (forall a w', k1 a w' = k2 a w') -> bind m k1 w = bind m k2 w.
Proof. intros H; unfold bind; destruct (m w) as [[a|e] w']; auto. Qed.

Lemma bind_cong {A B : Type} (m1 m2 : M A) (k : A -> M B) w :
  m1 w = m2 w -> bind m1 k w = bind m2 k w.
Proof. intros H; unfold bind; now rewrite H. Qed.

Lemma try_except_cong {A : Type} (m1 m2 : M A) h w :
  m1 w = m2 w -> try_except m1 h w = try_except m2 h w.
Proof. intros H; unfold try_except; now rewrite H. Qed.

(** With an idle UI thread the interleaved run is the plain run. *)
Lemma interleaved_idle k self fp w :
  processar_planilha_interleaved raises workbook (ret tt) k self fp w
  = processar_planilha raises workbook self fp w.
Proof.
  unfold processar_planilha_interleaved, processar_planilha.
  apply bind_ext; intros _ w0.
  apply bind_cong, try_except_cong.
  apply bind_ext; intros _ wa.
  apply bind_ext; intros rows wb.
  apply bind_ext; intros _ wc.
  apply bind_ext; intros _ wd.
  rewrite <- (bind_cong _ _ _ _ (for_rows_split self rows k wd)).
  unfold bind, on_ui_thread, ret.
  destruct (for_rows raises self 1 (firstn k rows) wd) as [[[]|e] we]; reflexivity.
Qed.

Lemma processar_planilha_run self fp w w2 :
  sink_quiet raises -> opens raises ->
  for_rows raises self 1 (tl (workbook fp)) (started workbook self fp w) = (Ok tt, w2) ->
  processar_planilha raises workbook self fp w = (Ok (stats w2), finished self w2).
Proof.
  intros Hq Ho H2.
  rewrite <- (interleaved_idle 0).
  apply (processar_planilha_interleaved_run (ret tt) 0 self fp w (started workbook self fp w));
    auto.
Qed.

(** *** Which records are driven *)

Lemma cliente_fills_app t1 t2 :
  cliente_fills (t1 ++ t2) = cliente_fills t1 ++ cliente_fills t2.
Proof.
  induction t1 as [|a t1 IH]; simpl; [reflexivity|].
  destruct a; auto.
  destruct (String.eqb field_id "cliente"); simpl; now rewrite IH.
Qed.

Lemma cliente_fills_progress self m c t : cliente_fills (progress_events self m c t) = [].
Proof. unfold progress_events; now destruct (progress_callback self). Qed.

Lemma form_calls_app t1 t2 : form_calls (t1 ++ t2) = form_calls t1 ++ form_calls t2.
Proof. apply filter_app. Qed.

Lemma always_succeeds_quiet : always_succeeds raises -> sink_quiet raises.
Proof. intros H h m c t; apply H. Qed.

Lemma always_succeeds_opens : always_succeeds raises -> opens raises.
Proof. intros H; split; intros; apply H. Qed.

Lemma loop_body_cliente_fills self index r w w' :
  sink_quiet raises ->
  loop_body raises self index r w = (Ok tt, w') ->
  cliente_fills (trace w') = cliente_fills (trace w) ++ map cliente (valid_products [r]).
Proof.
  intros Hq; simpl.
  destruct (is_blank r) eqn:Hb.
  - rewrite loop_body_blank by assumption; intros [= <-]; simpl; now rewrite app_nil_r.
  - destruct (parse_row r) as [p|e] eqn:Hp.
    + rewrite (loop_body_valid _ _ _ _ p), report_progress_quiet by assumption.
      cbv zeta.
      destruct (attempt_extends
                  (trace (emit (progress_events self (processando p) index (total (stats w))) w)
                   ++ [ClickClear])
                  (fill_actions p)) as (done & rest & Ha & Hf & _ & Hhd).
      destruct (Hhd _ _ eq_refl) as (more & ->).
      assert (Hm : cliente_fills more = []).
      { injection Ha as Ha.
        assert (E : cliente_fills (more ++ rest) = []) by (rewrite <- Ha; reflexivity).
        rewrite cliente_fills_app in E; now apply app_eq_nil in E. }
      assert (Ht : cliente_fills
                     (fst (attempt raises
                             (trace (emit (progress_events self (processando p) index
                                             (total (stats w))) w) ++ [ClickClear])
                             (fill_actions p)))
                   = cliente_fills (trace w) ++ [cliente p]).
      { rewrite Hf; unfold emit; cbn [trace set_trace].
        rewrite !cliente_fills_app, cliente_fills_progress; simpl.
        now rewrite Hm, !app_nil_r. }
      destruct (snd (attempt raises _ _)); intros [= <-]; exact Ht.
    + rewrite (loop_body_rejected _ _ _ _ e) by assumption.
      intros [= <-]; simpl; now rewrite app_nil_r.
Qed.

Lemma valid_products_cons r rest :
  valid_products (r :: rest) = valid_products [r] ++ valid_products rest.
Proof.
  simpl; destruct (is_blank r); [reflexivity|].
  now destruct (parse_row r).
Qed.

Lemma for_rows_cliente_fills self rows : forall index w w',
  sink_quiet raises ->
  for_rows raises self index rows w = (Ok tt, w') ->
  cliente_fills (trace w') = cliente_fills (trace w) ++ map cliente (valid_products rows).
Proof.
  induction rows as [|r rest IH]; intros index w w' Hq.
  - intros [= <-]; simpl; now rewrite app_nil_r.
  - simpl for_rows; unfold bind.
    destruct (loop_body raises self index r w) as [[[]|e] w1] eqn:Hr; [|discriminate].
    intros H; rewrite (IH _ _ _ Hq H), (loop_body_cliente_fills _ _ _ _ _ Hq Hr).
    now rewrite (valid_products_cons r rest), map_app, app_assoc.
Qed.

(** *** Rows that go through *)

Lemma loop_body_success self index r w p :
  always_succeeds raises -> is_blank r = false -> parse_row r = Ok p ->
  loop_body raises self index r w =
  (Ok tt,
   set_stats (inc_sucesso (stats w))
     (emit (progress_events self (processando p) index (total (stats w))
            ++ form_actions p) w)).
Proof.
  intros Ha Hb Hp.
  rewrite (loop_body_valid _ _ _ _ p), report_progress_quiet
    by auto using always_succeeds_quiet.
  cbv zeta; rewrite attempt_all_fine by assumption; simpl.
  do 2 f_equal; unfold emit; cbn [trace set_trace].
  apply world_eq; simpl; auto.
  now rewrite <- !app_assoc.
Qed.

Lemma form_calls_form_actions p : form_calls (form_actions p) = form_actions p.
Proof. reflexivity. Qed.

Lemma form_calls_progress self m c t : form_calls (progress_events self m c t) = [].
Proof. apply progress_events_quiet. Qed.

Lemma for_rows_all_valid self rows : forall index w,
  always_succeeds raises -> Forall valid_row rows ->
  exists w',
    for_rows raises self index rows w = (Ok tt, w') /\
    stats w' = mkStats (total (stats w)) (sucesso (stats w) + length rows)
                 (erro (stats w)) (erros_detalhados (stats w)) /\
    form_calls (trace w') =
      form_calls (trace w) ++ flat_map form_actions (valid_products rows) /\
    length (valid_products rows) = length rows.
Proof.
  induction rows as [|r rest IH]; intros index w Ha Hv.
  - exists w; simpl; rewrite app_nil_r, Nat.add_0_r; repeat split.
    now destruct (stats w).
  - inversion Hv as [|? ? [Hb [p Hp]] Hrest]; subst.
    simpl for_rows; unfold bind.
    rewrite (loop_body_success _ _ _ _ p) by assumption.
    destruct (IH (S index)
                (set_stats (inc_sucesso (stats w))
                   (emit (progress_events self (processando p) index (total (stats w))
                          ++ form_actions p) w)) Ha Hrest)
      as (w' & Hr & Hs & Hf & Hl).
    exists w'; split; [exact Hr|]; simpl valid_products; rewrite Hb, Hp.
    repeat split.
    + rewrite Hs; simpl; f_equal; lia.
    + rewrite Hf; unfold emit; cbn [trace set_trace set_stats].
      rewrite !form_calls_app, form_calls_progress, form_calls_form_actions.
      simpl; now rewrite <- app_assoc.
    + simpl; now rewrite Hl.
Qed.

(** *** Nothing escapes *)

Lemma preencher_produto_returns p w :
  exists b w', preencher_produto raises p w = (Ok b, w').
Proof. rewrite preencher_produto_run; eauto. Qed.

Lemma critical_returns e w :
  critical e w = (Ok tt, set_stats (append_erro (mkErro 0 (CStr "ERRO CRÍTICO") e) (stats w)) w).
Proof. reflexivity. Qed.

Lemma try_critical_returns (m : M unit) w :
  exists w', try_except m critical w = (Ok tt, w').
Proof.
  unfold try_except; destruct (m w) as [[[]|e] w1]; [eauto|].
  rewrite critical_returns; eauto.
Qed.

Lemma processar_planilha_returns self fp w :
  exists st w', processar_planilha raises workbook self fp w = (Ok st, w') /\ st = stats w'.
Proof.
  unfold processar_planilha.
  erewrite bind_ok by reflexivity.
  match goal with
  | |- context [bind (try_except ?m critical) _ ?w0] =>
      destruct (try_critical_returns m w0) as (w1 & H)
  end.
  erewrite bind_ok by exact H.
  unfold get_stats; eauto.
Qed.

Lemma cliente_fills_form_calls t : cliente_fills (form_calls t) = cliente_fills t.
Proof.
  induction t as [|a t IH]; simpl; [reflexivity|].
  destruct a; simpl; auto.
  now rewrite IH.
Qed.

Lemma count_submits_form_calls t : count_submits (form_calls t) = count_submits t.
Proof.
  unfold count_submits, form_calls.
  induction t as [|a t IH]; simpl; [reflexivity|].
  destruct a; simpl; auto.
Qed.

Lemma count_submits_app t1 t2 :
  count_submits (t1 ++ t2) = count_submits t1 + count_submits t2.
Proof. unfold count_submits; now rewrite filter_app, length_app. Qed.

Lemma count_submits_products ps :
  count_submits (flat_map form_actions ps) = length ps.
Proof.
  induction ps as [|p ps IH]; simpl; [reflexivity|].
  change (count_submits (fill_actions p ++ flat_map form_actions ps) = S (length ps)).
  rewrite count_submits_app, IH; reflexivity.
Qed.

(** *** What leaves the counters alone *)

Lemma perform_stats a w r w' : perform raises a w = (r, w') -> stats w' = stats w.
Proof. rewrite perform_run; now intros [= _ <-]. Qed.

Lemma report_progress_stats self m c t w r w' :
  _report_progress raises self m c t w = (r, w') -> stats w' = stats w.
Proof.
  unfold _report_progress; destruct (progress_callback self).
  - apply perform_stats.
  - now intros [= _ <-].
Qed.

Lemma navigate_stats self w r w' :
  navigate raises self w = (r, w') -> stats w' = stats w.
Proof.
  unfold navigate, bind.
  destruct (_report_progress raises self _ 0 0 w) as [[[]|e] w1] eqn:H1.
  - intros H2; rewrite (perform_stats _ _ _ _ H2); eapply report_progress_stats; eauto.
  - intros [= _ <-]; eapply report_progress_stats; eauto.
Qed.

Lemma load_rows_stats fp w r w' :
  load_rows raises workbook fp w = (r, w') -> stats w' = stats w.
Proof.
  unfold load_rows, bind, ret.
  destruct (perform raises (LoadWorkbook fp) w) as [[[]|e] w1] eqn:H1;
    intros [= _ <-]; eapply perform_stats; eauto.
Qed.

Lemma report_done_stats self w r w' :
  report_done raises self w = (r, w') -> stats w' = stats w.
Proof. unfold report_done, bind, get_stats; apply report_progress_stats. Qed.

Lemma navigate_set_stats self s w :
  navigate raises self (set_stats s w) =
  (fst (navigate raises self w), set_stats s (snd (navigate raises self w))).
Proof.
  unfold navigate, _report_progress, bind, ret.
  destruct (progress_callback self); rewrite ?perform_run;
    unfold emit; cbn [trace set_trace set_stats];
    repeat (match goal with
            | |- context [raises ?h ?a] => destruct (raises h a)
            end); reflexivity.
Qed.

Lemma count_nonblank_le rows : count_nonblank rows <= length rows.
Proof. apply filter_length_le. Qed.

Lemma count_blank_nonblank rows : count_nonblank rows + count_blank rows = length rows.
Proof.
  unfold count_nonblank, count_blank.
  induction rows as [|r rows IH]; simpl; [reflexivity|].
  destruct (is_blank r); simpl; lia.
Qed.

Lemma count_nonblank_app l1 l2 :
  count_nonblank (l1 ++ l2) = count_nonblank l1 + count_nonblank l2.
Proof. unfold count_nonblank; now rewrite filter_app, length_app. Qed.

(** The counters never exceed the total, whatever is raised and wherever. *)
Lemma processar_planilha_bounded self fp w st w' :
  processar_planilha raises workbook self fp w = (Ok st, w') ->
  sucesso st + erro st <= total st.
Proof.
  unfold processar_planilha.
  erewrite bind_ok by reflexivity.
  match goal with
  | |- context [bind (try_except ?m critical) _ ?w0] =>
      assert (Hbody : forall r w1, m w0 = (r, w1) ->
                sucesso (stats w1) + erro (stats w1) <= total (stats w1));
      [|destruct (m w0) as [r w1] eqn:Hm;
        specialize (Hbody r w1 eq_refl);
        destruct r as [[]|e];
        [erewrite bind_ok by (apply try_except_ok; exact Hm)
        |erewrite bind_ok
           by (erewrite try_except_raise by exact Hm; apply critical_returns)]]
  end.
  - intros r w1.
    unfold bind at 1.
    destruct (navigate raises self _) as [[[]|e] wa] eqn:Hn;
      apply navigate_stats in Hn; cbn [stats set_stats] in Hn;
      [|intros [= _ <-]; rewrite Hn; simpl; lia].
    unfold bind at 1.
    destruct (load_rows raises workbook fp wa) as [[rows|e] wb] eqn:Hl;
      apply load_rows_stats in Hl;
      [|intros [= _ <-]; rewrite Hl, Hn; simpl; lia].
    unfold bind at 1, modify_stats at 1.
    unfold bind at 1.
    destruct (_report_progress raises self _ 0 0 _) as [[[]|e] wd] eqn:Hr;
      apply report_progress_stats in Hr; cbn [stats set_stats] in Hr;
      [|intros [= _ <-]; rewrite Hr, Hl, Hn; simpl; lia].
    unfold bind at 1.
    destruct (for_rows_returns self rows 1 wd) as (we & Hf & Hout & _).
    rewrite Hf.
    destruct (outcomes_counts _ _ _ _ Hout) as [Ht Hc].
    rewrite Hr, Hl, Hn in Ht, Hc; simpl in Ht, Hc.
    intros Hd; apply report_done_stats in Hd; rewrite Hd.
    pose proof (count_nonblank_le rows); lia.
  - unfold get_stats; now intros [= <- _].
  - unfold get_stats; intros [= <- _]; simpl; exact Hbody.
Qed.

End Properties.

(** ** The claims *)

(** C1. Per-record failure isolation.  Whatever the browser, the progress
    sink and the file system do, [preencher_produto] and an iteration of
    the loop return without raising, and [processar_planilha] returns the
    [stats] dict.  When navigation and loading succeed and the sink does
    not raise, every non-blank row gets its outcome, the total is that of
    the sheet, and the form is driven for every accepted row in turn,
    whatever happened to the rows before it. *)
Theorem failure_isolation raises workbook self fp w :
  (forall p w0, exists b w1, preencher_produto raises p w0 = (Ok b, w1)) /\
  (forall index r w0, exists w1, loop_body raises self index r w0 = (Ok tt, w1)) /\
  (exists st w',
      processar_planilha raises workbook self fp w = (Ok st, w') /\ st = stats w') /\
  (sink_quiet raises -> opens raises ->
   forall st w',
     processar_planilha raises workbook self fp w = (Ok st, w') ->
     total st = length (tl (workbook fp)) /\
     sucesso st + erro st = count_nonblank (tl (workbook fp)) /\
     cliente_fills (trace w') =
       cliente_fills (trace w) ++ map cliente (valid_products (tl (workbook fp)))).
Proof.
  split; [intros; apply preencher_produto_returns|].
  split.
  { intros index r w0.
    destruct (loop_body_returns raises self index r w0) as (w1 & H & _); eauto. }
  split; [apply processar_planilha_returns|].
  intros Hq Ho st w' Hrun.
  destruct (for_rows_returns raises self (tl (workbook fp)) 1 (started workbook self fp w))
    as (w2 & Hr & Hout & _).
  rewrite (processar_planilha_run raises workbook self fp w w2 Hq Ho Hr) in Hrun.
  injection Hrun as <- <-.
  destruct (outcomes_counts _ _ _ _ Hout) as [Ht Hc].
  rewrite started_stats in Ht, Hc; simpl in Ht, Hc.
  repeat split; auto.
  destruct (finished_quiet self w2) as (_ & _ & Hf & _).
  destruct (started_quiet workbook self fp w) as (_ & _ & Hs & _).
  rewrite <- (cliente_fills_form_calls (trace (finished self w2))), Hf,
    cliente_fills_form_calls.
  rewrite (for_rows_cliente_fills raises self _ _ _ _ Hq Hr).
  now rewrite <- (cliente_fills_form_calls (trace (started workbook self fp w))), Hs,
    cliente_fills_form_calls.
Qed.

Lemma failure_isolation_witness :
  sink_quiet first_fill_raises /\ opens first_fill_raises /\
  exists st w',
    processar_planilha first_fill_raises (book [row_ana; row_blank; row_bia; row_caio])
      robot "dados.xlsx" fresh = (Ok st, w') /\
    total st = 4 /\
    sucesso st + erro st = 3 /\
    cliente_fills (trace w') = ["Ana"; "Bia"; "Caio"].
Proof.
  assert (Hq : sink_quiet first_fill_raises) by (intros h m c t; reflexivity).
  assert (Ho : opens first_fill_raises) by (split; intros; reflexivity).
  split; [exact Hq|]. split; [exact Ho|].
  destruct (failure_isolation first_fill_raises (book [row_ana; row_blank; row_bia; row_caio])
              robot "dados.xlsx" fresh) as (_ & _ & (st & w' & Hrun & _) & Hrest).
  exists st, w'. split; [exact Hrun|].
  exact (Hrest Hq Ho st w' Hrun).
Defined.

(** C2. Happy path.  When nothing raises and every data row is accepted,
    the run returns [sucesso = N], [erro = 0] and no failure entry, and the
    calls made on the form are those of the N records, row after row: N
    submits in source order. *)
Theorem happy_path raises workbook self fp w :
  always_succeeds raises ->
  Forall valid_row (tl (workbook fp)) ->
  exists st w',
    processar_planilha raises workbook self fp w = (Ok st, w') /\
    total st = length (tl (workbook fp)) /\
    sucesso st = length (tl (workbook fp)) /\
    erro st = 0 /\
    erros_detalhados st = [] /\
    length (valid_products (tl (workbook fp))) = length (tl (workbook fp)) /\
    form_calls (trace w') =
      form_calls (trace w) ++ flat_map form_actions (valid_products (tl (workbook fp))) /\
    count_submits (trace w') = count_submits (trace w) + length (tl (workbook fp)).
Proof.
  intros Ha Hv.
  pose proof (always_succeeds_quiet raises Ha) as Hq.
  pose proof (always_succeeds_opens raises Ha) as Ho.
  destruct (for_rows_all_valid raises self (tl (workbook fp)) 1
              (started workbook self fp w) Ha Hv) as (w2 & Hr & Hs & Hf & Hl).
  exists (stats w2), (finished self w2).
  split; [exact (processar_planilha_run raises workbook self fp w w2 Hq Ho Hr)|].
  rewrite Hs, started_stats; cbn [total sucesso erro erros_detalhados].
  destruct (finished_quiet self w2) as (_ & _ & Hfin & _).
  destruct (started_quiet workbook self fp w) as (_ & _ & Hst & _).
  assert (Hcalls : form_calls (trace (finished self w2)) =
            form_calls (trace w) ++ flat_map form_actions (valid_products (tl (workbook fp))))
    by (rewrite Hfin, Hf, Hst; reflexivity).
  repeat split; auto.
  rewrite <- (count_submits_form_calls (trace (finished self w2))), Hcalls.
  now rewrite count_submits_app, count_submits_form_calls, count_submits_products, Hl.
Qed.

Lemma happy_path_witness :
  always_succeeds never_raises /\
  Forall valid_row [row_ana; row_bia; row_caio] /\
  exists st w',
    processar_planilha never_raises (book [row_ana; row_bia; row_caio])
      robot "dados.xlsx" fresh = (Ok st, w') /\
    sucesso st = 3 /\ erro st = 0 /\ erros_detalhados st = [] /\
    form_calls (trace w') =
      [ClickClear; FillText "cliente" "Ana"; FillText "produto" "Mesa";
       FillText "quantidade" "2"; SelectValue "Moveis"; ClickSave;
       ClickClear; FillText "cliente" "Bia"; FillText "produto" "Livro";
       FillText "quantidade" "3"; SelectValue "Livros"; ClickSave;
       ClickClear; FillText "cliente" "Caio"; FillText "produto" "Bola";
       FillText "quantidade" "1"; SelectValue "Esportes"; ClickSave] /\
    count_submits (trace w') = 3.
Proof.
  assert (Ha : always_succeeds never_raises) by (intros h a; reflexivity).
  assert (Hv : Forall valid_row [row_ana; row_bia; row_caio]).
  { repeat constructor; eexists; reflexivity. }
  split; [exact Ha|]. split; [exact Hv|].
  destruct (happy_path never_raises (book [row_ana; row_bia; row_caio])
              robot "dados.xlsx" fresh Ha Hv)
    as (st & w' & Hrun & _ & Hs & He & Hd & _ & Hf & Hc).
  exists st, w'; repeat split; assumption.
Defined.

(** C3, as stated, fails: a navigation failure leaves [erro] at 0. *)
Lemma navigation_failure_not_counted :
  exists st w',
    processar_planilha (get_raises "net::ERR_CONNECTION_TIMED_OUT") (book [row_ana])
      robot "dados.xlsx" fresh = (Ok st, w') /\
    total st = 0 /\ length (erros_detalhados st) = 1 /\ erro st <> 1.
Proof.
  eexists; eexists; split; [vm_compute; reflexivity|].
  repeat split; simpl; discriminate.
Qed.

(** C3, amended.  When [navigate] raises, the run returns before any row
    is read: all three counters are 0 and the failure list holds the one
    entry with line 0, the critical marker and the message of the error;
    nothing is called after the failed navigation. *)
Theorem navigation_failure raises workbook self fp w e w1 :
  navigate raises self w = (Raise e, w1) ->
  exists st w',
    processar_planilha raises workbook self fp w = (Ok st, w') /\
    st = mkStats 0 0 0 [mkErro 0 (CStr "ERRO CRÍTICO") e] /\
    trace w' = trace w1.
Proof.
  intros Hn.
  unfold processar_planilha.
  erewrite bind_ok by reflexivity.
  erewrite bind_ok.
  2:{ erewrite try_except_raise.
      - apply critical_returns.
      - apply bind_raise.
        rewrite navigate_set_stats, Hn; reflexivity. }
  unfold get_stats; simpl.
  eexists; eexists; split; [reflexivity|]; split; reflexivity.
Qed.

Lemma navigation_failure_witness :
  exists st w',
    processar_planilha (get_raises "net::ERR_CONNECTION_TIMED_OUT") (book [row_ana])
      robot "dados.xlsx" fresh = (Ok st, w') /\
    st = mkStats 0 0 0 [mkErro 0 (CStr "ERRO CRÍTICO") "net::ERR_CONNECTION_TIMED_OUT"] /\
    trace w' = [Callback "Acessando https://devaprender-contabil.netlify.app/" 0 0;
                Get "https://devaprender-contabil.netlify.app/"].
Proof.
  apply (navigation_failure (get_raises "net::ERR_CONNECTION_TIMED_OUT") (book [row_ana])
           robot "dados.xlsx" fresh "net::ERR_CONNECTION_TIMED_OUT"
           (emit [Callback "Acessando https://devaprender-contabil.netlify.app/" 0 0;
                  Get "https://devaprender-contabil.netlify.app/"] fresh)).
  reflexivity.
Defined.

(** C4, as stated, fails: a blank row is counted in [total]. *)
Lemma blank_row_counted_in_total :
  is_blank row_blank = true /\
  exists st w',
    processar_planilha never_raises (book [row_ana; row_blank])
      robot "dados.xlsx" fresh = (Ok st, w') /\
    total st = 2 /\
    total st <> count_nonblank [row_ana; row_blank].
Proof.
  split; [reflexivity|].
  eexists; eexists; split; [vm_compute; reflexivity|].
  split; [reflexivity|]; simpl; discriminate.
Qed.

(** C4, amended.  A data row with no cell, or whose first cell is [None]
    or the empty string (or any other falsy value), is skipped entirely:
    the iteration changes neither the trace nor the counters, so the row
    is neither validated nor driven.  It is nevertheless counted in
    [total], which is the number of data rows after the header, blank rows
    included. *)
Theorem blank_rows_skipped_but_counted raises workbook self fp w :
  (forall rest, is_blank [] = true /\ is_blank (CNone :: rest) = true /\
                is_blank (CStr "" :: rest) = true) /\
  (forall index r w0,
      is_blank r = true -> loop_body raises self index r w0 = (Ok tt, w0)) /\
  (sink_quiet raises -> opens raises ->
   forall st w',
     processar_planilha raises workbook self fp w = (Ok st, w') ->
     total st = length (tl (workbook fp)) /\
     total st = count_nonblank (tl (workbook fp)) + count_blank (tl (workbook fp)) /\
     sucesso st + erro st = count_nonblank (tl (workbook fp))).
Proof.
  split; [intros; repeat split|].
  split; [intros; now apply loop_body_blank|].
  intros Hq Ho st w' Hrun.
  destruct (for_rows_returns raises self (tl (workbook fp)) 1 (started workbook self fp w))
    as (w2 & Hr & Hout & _).
  rewrite (processar_planilha_run raises workbook self fp w w2 Hq Ho Hr) in Hrun.
  injection Hrun as <- <-.
  destruct (outcomes_counts _ _ _ _ Hout) as [Ht Hc].
  rewrite started_stats in Ht, Hc; simpl in Ht, Hc.
  rewrite count_blank_nonblank; auto.
Qed.

Lemma blank_rows_skipped_but_counted_witness :
  sink_quiet never_raises /\ opens never_raises /\
  loop_body never_raises robot 2 row_blank fresh = (Ok tt, fresh) /\
  exists st w',
    processar_planilha never_raises (book [row_ana; row_blank])
      robot "dados.xlsx" fresh = (Ok st, w') /\
    total st = 2 /\ sucesso st + erro st = 1.
Proof.
  assert (Hq : sink_quiet never_raises) by (intros h m c t; reflexivity).
  assert (Ho : opens never_raises) by (split; intros; reflexivity).
  destruct (blank_rows_skipped_but_counted never_raises (book [row_ana; row_blank])
              robot "dados.xlsx" fresh) as (_ & Hskip & Hrun).
  split; [exact Hq|]. split; [exact Ho|].
  split; [apply Hskip; reflexivity|].
  destruct (processar_planilha never_raises (book [row_ana; row_blank])
              robot "dados.xlsx" fresh) as [[st|e] w'] eqn:E; [|discriminate E].
  exists st, w'; split; [reflexivity|].
  destruct (Hrun Hq Ho st w' eq_refl) as (Ht & _ & Hc).
  split; [exact Ht|exact Hc].
Defined.

(** C5, as stated, fails: a run that was never cancelled ends with
    [sucesso + erro] below [total] as soon as the sheet holds a blank row. *)
Lemma blank_row_breaks_accounting :
  exists st w',
    processar_planilha never_raises (book [row_ana; row_blank; row_no_category])
      robot "dados.xlsx" fresh = (Ok st, w') /\
    sucesso st = 1 /\ erro st = 1 /\ total st = 3 /\
    sucesso st + erro st <> total st.
Proof.
  eexists; eexists; split; [vm_compute; reflexivity|].
  repeat split; simpl; discriminate.
Qed.

(** C5, amended.  Every run returns counters with
    [sucesso + erro <= total].  When navigation and loading succeed and
    the sink does not raise, the gap is exactly the number of blank data
    rows: [sucesso + erro + blank = total]; there is no cancelled state in
    which rows stay unprocessed. *)
Theorem stats_accounting raises workbook self fp w :
  exists st w',
    processar_planilha raises workbook self fp w = (Ok st, w') /\
    sucesso st + erro st <= total st /\
    (sink_quiet raises -> opens raises ->
     sucesso st + erro st + count_blank (tl (workbook fp)) = total st).
Proof.
  destruct (processar_planilha_returns raises workbook self fp w) as (st & w' & Hrun & _).
  exists st, w'; split; [exact Hrun|].
  split; [exact (processar_planilha_bounded raises workbook self fp w st w' Hrun)|].
  intros Hq Ho.
  destruct (for_rows_returns raises self (tl (workbook fp)) 1 (started workbook self fp w))
    as (w2 & Hr & Hout & _).
  rewrite (processar_planilha_run raises workbook self fp w w2 Hq Ho Hr) in Hrun.
  injection Hrun as <- <-.
  destruct (outcomes_counts _ _ _ _ Hout) as [Ht Hc].
  rewrite started_stats in Ht, Hc; simpl in Ht, Hc.
  rewrite Ht, Hc; apply count_blank_nonblank.
Qed.

Lemma stats_accounting_witness :
  sink_quiet never_raises /\ opens never_raises /\
  exists st w',
    processar_planilha never_raises (book [row_ana; row_blank; row_no_category])
      robot "dados.xlsx" fresh = (Ok st, w') /\
    sucesso st + erro st + 1 = total st.
Proof.
  assert (Hq : sink_quiet never_raises) by (intros h m c t; reflexivity).
  assert (Ho : opens never_raises) by (split; intros; reflexivity).
  split; [exact Hq|]. split; [exact Ho|].
  destruct (stats_accounting never_raises (book [row_ana; row_blank; row_no_category])
              robot "dados.xlsx" fresh) as (st & w' & Hrun & _ & Heq).
  exists st, w'; split; [exact Hrun|exact (Heq Hq Ho)].
Defined.

(** C6, as stated, fails: a field that is empty only after trimming is
    not rejected; the record is driven with the empty value. *)
Lemma blank_after_trim_accepted :
  parse_row row_spaces = Ok (mkProduct "" "Mesa" 2 "Moveis") /\
  exists st w',
    processar_planilha never_raises (book [row_spaces])
      robot "dados.xlsx" fresh = (Ok st, w') /\
    sucesso st = 1 /\ erros_detalhados st = [] /\
    cliente_fills (trace w') = [""].
Proof.
  split; [reflexivity|].
  eexists; eexists; split; [vm_compute; reflexivity|].
  repeat split.
Qed.

(** C6, amended.  For a non-blank row with cells [c], [p], [q], [k] in its
    first four columns, the presence check looks at the raw cells, before
    trimming and coercion: if one of them is falsy the row is rejected
    with "Campos obrigatórios vazios"; otherwise, if [int(q)] raises, it is
    rejected with that error's message; otherwise the record holds the
    trimmed [str] of [c], [p] and [k] and the integer of [q].  A rejected
    row is counted as a failure under its line and label, and nothing is
    called on the form for it. *)
Theorem record_validation raises self index (c p q k : cell) (rest : row) w :
  is_blank (c :: p :: q :: k :: rest) = false ->
  (py_all [c; p; q; k] = false ->
   parse_row (c :: p :: q :: k :: rest) = Raise "Campos obrigatórios vazios") /\
  (py_all [c; p; q; k] = true ->
   forall e, py_int q = Raise e -> parse_row (c :: p :: q :: k :: rest) = Raise e) /\
  (py_all [c; p; q; k] = true ->
   forall n, py_int q = Ok n ->
   parse_row (c :: p :: q :: k :: rest) =
   Ok (mkProduct (strip (py_str c)) (strip (py_str p)) n (strip (py_str k)))) /\
  (forall e,
      parse_row (c :: p :: q :: k :: rest) = Raise e ->
      exists w',
        loop_body raises self index (c :: p :: q :: k :: rest) w = (Ok tt, w') /\
        trace w' = trace w /\
        stats w' = record_failure (mkErro (index + 1) p e) (stats w)).
Proof.
  intros Hb.
  unfold parse_row; cbn [firstn unpack4]; unfold validar.
  repeat split.
  - intros ->; reflexivity.
  - intros -> e ->; reflexivity.
  - intros -> n ->; reflexivity.
  - intros e He.
    eexists; split; [apply loop_body_rejected; [exact Hb|exact He]|].
    split; reflexivity.
Qed.

Lemma record_validation_witness :
  is_blank row_no_category = false /\
  parse_row row_no_category = Raise "Campos obrigatórios vazios" /\
  parse_row row_bad_quantity = Raise "invalid literal for int() with base 10: 'dois'" /\
  parse_row row_bia = Ok (mkProduct "Bia" "Livro" 3 "Livros") /\
  exists w',
    loop_body (submit_raises "x") robot 2 row_no_category fresh = (Ok tt, w') /\
    trace w' = [] /\
    stats w' = mkStats 0 0 1 [mkErro 3 (CStr "Vaso") "Campos obrigatórios vazios"].
Proof.
  split; [reflexivity|].
  destruct (record_validation (submit_raises "x") robot 2
              (CStr "Davi") (CStr "Vaso") (CInt 5) CNone [] fresh eq_refl)
    as (Hmissing & _ & _ & Hloop).
  destruct (record_validation (submit_raises "x") robot 2
              (CStr "Gil") (CStr "Sofa") (CStr "dois") (CStr "Moveis") [] fresh eq_refl)
    as (_ & Hint & _ & _).
  destruct (record_validation (submit_raises "x") robot 2
              (CStr " Bia ") (CStr "Livro") (CStr "3") (CStr "Livros") [] fresh eq_refl)
    as (_ & _ & Hok & _).
  split; [exact (Hmissing eq_refl)|].
  split; [exact (Hint eq_refl _ eq_refl)|].
  split; [exact (Hok eq_refl _ eq_refl)|].
  exact (Hloop _ (Hmissing eq_refl)).
Defined.

(** C10.  A non-blank row whose quantity cell is the integer 0 is rejected
    with "Campos obrigatórios vazios", although [int(0)] is an integer:
    the presence check tests the truth value of the raw cells.  The row is
    counted as a failure and nothing is called on the form for it. *)
Theorem zero_quantity_rejected raises self index (c p k : cell) (rest : row) w :
  is_blank (c :: p :: CInt 0 :: k :: rest) = false ->
  py_int (CInt 0) = Ok 0%Z /\
  parse_row (c :: p :: CInt 0 :: k :: rest) = Raise "Campos obrigatórios vazios" /\
  exists w',
    loop_body raises self index (c :: p :: CInt 0 :: k :: rest) w = (Ok tt, w') /\
    trace w' = trace w /\
    stats w' =
      record_failure (mkErro (index + 1) p "Campos obrigatórios vazios") (stats w).
Proof.
  intros Hb.
  assert (Hp : parse_row (c :: p :: CInt 0 :: k :: rest) = Raise "Campos obrigatórios vazios").
  { unfold parse_row; cbn [firstn unpack4]; unfold validar, py_all.
    cbn [forallb truthy Z.eqb negb].
    now rewrite !andb_false_r. }
  split; [reflexivity|]. split; [exact Hp|].
  eexists; split; [apply loop_body_rejected; [exact Hb|exact Hp]|].
  split; reflexivity.
Qed.

Lemma zero_quantity_rejected_witness :
  is_blank row_zero = false /\
  parse_row row_zero = Raise "Campos obrigatórios vazios" /\
  exists w',
    loop_body never_raises robot 1 row_zero fresh = (Ok tt, w') /\
    trace w' = [] /\
    stats w' = mkStats 0 0 1 [mkErro 2 (CStr "Suco") "Campos obrigatórios vazios"].
Proof.
  split; [reflexivity|].
  destruct (zero_quantity_rejected never_raises robot 1
              (CStr "Eva") (CStr "Suco") (CStr "Bebidas") [] fresh eq_refl)
    as (_ & Hp & Hloop).
  split; [exact Hp|exact Hloop].
Defined.

(** C7.  Row numbering.  Every failure entry of a run carries the line
    [index + 1] of a non-blank data row, [index] being the row's 1-based
    position among the data rows, that is its line in the sheet below the
    header; entries come in increasing line order, one per failure, and
    every rejected row has its entry.  In particular, when nothing raises
    and one row among N otherwise accepted rows is rejected, the run
    returns [sucesso = N - 1], [erro = 1] and the single entry of that
    row's line. *)
Theorem row_numbering raises workbook self fp w :
  (sink_quiet raises -> opens raises ->
   exists st w',
     processar_planilha raises workbook self fp w = (Ok st, w') /\
     erro st = length (erros_detalhados st) /\
     Forall (fun d => exists i r,
               nth_error (tl (workbook fp)) i = Some r /\ is_blank r = false /\
               d_linha d = (i + 1) + 1) (erros_detalhados st) /\
     StronglySorted lt (map d_linha (erros_detalhados st)) /\
     (forall i r e,
         nth_error (tl (workbook fp)) i = Some r -> is_blank r = false ->
         parse_row r = Raise e ->
         In (mkErro ((i + 1) + 1) (row_label r) e) (erros_detalhados st))) /\
  (always_succeeds raises ->
   forall before bad after e,
     tl (workbook fp) = before ++ bad :: after ->
     Forall valid_row before -> Forall valid_row after ->
     is_blank bad = false -> parse_row bad = Raise e ->
     exists st w',
       processar_planilha raises workbook self fp w = (Ok st, w') /\
       sucesso st = length (tl (workbook fp)) - 1 /\
       erro st = 1 /\
       erros_detalhados st = [mkErro ((length before + 1) + 1) (row_label bad) e]).
Proof.
  split.
  - intros Hq Ho.
    destruct (for_rows_returns raises self (tl (workbook fp)) 1 (started workbook self fp w))
      as (w2 & Hr & Hout & _).
    exists (stats w2), (finished self w2).
    split; [exact (processar_planilha_run raises workbook self fp w w2 Hq Ho Hr)|].
    destruct (outcomes_failures _ _ _ _ Hout) as (ds & He & Hn & Hf & Hs & Hrej).
    rewrite started_stats in He, Hn; simpl in He, Hn.
    rewrite He, Hn; repeat split; auto.
    + eapply Forall_impl; [|exact Hf].
      intros d (i & r & Hi & Hb & Hl); exists i, r; repeat split; auto; lia.
    + intros i r e Hi Hb Hp.
      replace (i + 1 + 1) with (1 + i + 1) by lia; eauto.
  - intros Ha before bad after e Hrows Hvb Hva Hb Hp.
    pose proof (always_succeeds_quiet raises Ha) as Hq.
    pose proof (always_succeeds_opens raises Ha) as Ho.
    destruct (for_rows_all_valid raises self before 1 (started workbook self fp w) Ha Hvb)
      as (wa & Hra & Hsa & _).
    destruct (for_rows_all_valid raises self after (S (1 + length before))
                (set_stats
                   (record_failure (mkErro (1 + length before + 1) (row_label bad) e)
                      (stats wa)) wa) Ha Hva)
      as (wc & Hrc & Hsc & _).
    assert (Hr : for_rows raises self 1 (tl (workbook fp)) (started workbook self fp w)
                 = (Ok tt, wc)).
    { rewrite Hrows, for_rows_app, Hra; simpl for_rows.
      erewrite bind_ok by (apply loop_body_rejected; eassumption).
      exact Hrc. }
    exists (stats wc), (finished self wc).
    split; [exact (processar_planilha_run raises workbook self fp w wc Hq Ho Hr)|].
    rewrite Hsc; cbn [stats set_stats record_failure append_erro inc_erro
                       total sucesso erro erros_detalhados].
    rewrite Hsa, started_stats; cbn [total sucesso erro erros_detalhados].
    rewrite Hrows, length_app; simpl.
    repeat split; try lia.
    do 2 f_equal; lia.
Qed.

Lemma row_numbering_witness :
  sink_quiet first_fill_raises /\ opens first_fill_raises /\
  always_succeeds never_raises /\
  (exists st w',
     processar_planilha first_fill_raises (book [row_ana; row_blank; row_zero])
       robot "dados.xlsx" fresh = (Ok st, w') /\
     erro st = length (erros_detalhados st) /\
     StronglySorted lt (map d_linha (erros_detalhados st)) /\
     In (mkErro 4 (CStr "Suco") "Campos obrigatórios vazios") (erros_detalhados st)) /\
  exists st w',
    processar_planilha never_raises (book [row_ana; row_no_category; row_caio])
      robot "dados.xlsx" fresh = (Ok st, w') /\
    sucesso st = 2 /\ erro st = 1 /\
    erros_detalhados st = [mkErro 3 (CStr "Vaso") "Campos obrigatórios vazios"].
Proof.
  assert (Hq : sink_quiet first_fill_raises) by (intros h m c t; reflexivity).
  assert (Ho : opens first_fill_raises) by (split; intros; reflexivity).
  assert (Ha : always_succeeds never_raises) by (intros h a; reflexivity).
  split; [exact Hq|]. split; [exact Ho|]. split; [exact Ha|].
  split.
  - destruct (row_numbering first_fill_raises (book [row_ana; row_blank; row_zero])
                robot "dados.xlsx" fresh) as (Hall & _).
    destruct (Hall Hq Ho) as (st & w' & Hrun & Hn & _ & Hs & Hrej).
    exists st, w'; repeat split; auto.
    exact (Hrej 2 row_zero "Campos obrigatórios vazios" eq_refl eq_refl eq_refl).
  - destruct (row_numbering never_raises (book [row_ana; row_no_category; row_caio])
                robot "dados.xlsx" fresh) as (_ & Hone).
    apply (Hone Ha [row_ana] row_no_category [row_caio] "Campos obrigatórios vazios");
      try reflexivity; repeat constructor; eexists; reflexivity.
Defined.

(** C8, as stated, fails: the reason recorded for a driving failure is not
    the message of the exception that was raised. *)
Lemma driving_failure_reason_is_fixed :
  snd (attempt (submit_raises "element click intercepted") [ClickClear]
         (fill_actions (mkProduct "Ana" "Mesa" 2 "Moveis")))
    = Some "element click intercepted" /\
  exists st w',
    processar_planilha (submit_raises "element click intercepted") (book [row_ana])
      robot "dados.xlsx" fresh = (Ok st, w') /\
    erros_detalhados st = [mkErro 2 (CStr "Mesa") "Falha ao submeter"] /\
    map d_erro (erros_detalhados st) <> ["element click intercepted"].
Proof.
  split; [reflexivity|].
  eexists; eexists; split; [vm_compute; reflexivity|].
  split; [reflexivity|]; simpl; discriminate.
Qed.

(** C8, amended.  When, for an accepted row, one of the fill, select or
    submit calls raises (with whatever message [e]), the exception stays
    inside [preencher_produto]: the iteration returns, the row is counted
    as a failure under its line and label with the fixed reason
    "Falha ao submeter", and the loop goes on with the next row. *)
Theorem driving_failure raises self index r rest p e w :
  is_blank r = false -> parse_row r = Ok p ->
  sink_quiet raises ->
  snd (attempt raises
         (trace (emit (progress_events self (processando p) index (total (stats w))) w)
          ++ [ClickClear])
         (fill_actions p)) = Some e ->
  exists w1,
    loop_body raises self index r w = (Ok tt, w1) /\
    stats w1 =
      record_failure (mkErro (index + 1) (row_label r) "Falha ao submeter") (stats w) /\
    for_rows raises self index (r :: rest) w = for_rows raises self (S index) rest w1.
Proof.
  intros Hb Hp Hq He.
  assert (Hl : exists w1,
             loop_body raises self index r w = (Ok tt, w1) /\
             stats w1 =
               record_failure (mkErro (index + 1) (row_label r) "Falha ao submeter")
                 (stats w)).
  { rewrite (loop_body_valid _ _ _ _ _ p), report_progress_quiet by assumption.
    cbv zeta; rewrite He.
    eexists; split; reflexivity. }
  destruct Hl as (w1 & Hl & Hs).
  exists w1; repeat split; auto.
  simpl for_rows; now erewrite bind_ok by exact Hl.
Qed.

Lemma driving_failure_witness :
  exists w1,
    loop_body (submit_raises "element click intercepted") robot 1 row_ana fresh
      = (Ok tt, w1) /\
    stats w1 = mkStats 0 0 1 [mkErro 2 (CStr "Mesa") "Falha ao submeter"] /\
    for_rows (submit_raises "element click intercepted") robot 1 [row_ana; row_bia] fresh
      = for_rows (submit_raises "element click intercepted") robot 2 [row_bia] w1.
Proof.
  apply (driving_failure (submit_raises "element click intercepted") robot 1 row_ana
           [row_bia] (mkProduct "Ana" "Mesa" 2 "Moveis") "element click intercepted" fresh).
  - reflexivity.
  - reflexivity.
  - intros h m c t; reflexivity.
  - reflexivity.
Defined.

(** *** The stop button *)

Lemma fechar_run raises a w :
  driver a = true ->
  fechar raises a w =
  (match raises (trace w) Quit with None => Ok tt | Some e => Raise e end, emit [Quit] w).
Proof. intros Hd; unfold fechar; rewrite Hd; apply perform_run. Qed.

Lemma stop_automation_run raises a w :
  automation w = Some a -> driver a = true ->
  stats (snd (_stop_automation raises w)) = stats w /\
  count_quits (trace (snd (_stop_automation raises w))) = count_quits (trace w) + 1.
Proof.
  intros Ha Hd; unfold _stop_automation; rewrite Ha.
  unfold bind; rewrite fechar_run by exact Hd.
  destruct (raises (trace w) Quit); simpl;
    rewrite count_quits_app; split; reflexivity.
Qed.

Lemma run_automation_of_run raises (engine : M Stats) a w st wf :
  driver a = true ->
  engine (set_automation (Some a) w) = (Ok st, wf) ->
  exists w',
    run_automation_of raises engine a w = (Ok tt, w') /\
    stats w' = stats wf /\
    is_running w' = false /\
    count_quits (trace w') = count_quits (trace wf) + 1.
Proof.
  intros Hd He.
  unfold run_automation_of, try_finally, try_except, assign_is_running.
  unfold bind at 1, assign_automation at 1.
  unfold bind at 1; rewrite He.
  unfold ret at 1, bind at 1.
  rewrite fechar_run by exact Hd.
  destruct (raises (trace wf) Quit); simpl;
    eexists; (split; [reflexivity|]); simpl; rewrite count_quits_app; auto.
Qed.

(** C9, as stated, fails: after a stop the loop goes through the remaining
    rows, and the browser is quit twice. *)
Lemma stop_does_not_stop_the_loop :
  exists w',
    run_automation_stopped dead_after_quit (book [row_ana; row_bia; row_caio]) 1
      robot "dados.xlsx" fresh = (Ok tt, w') /\
    sucesso (stats w') = 1 /\ erro (stats w') = 2 /\
    sucesso (stats w') + erro (stats w') <> 1 /\
    count_quits (trace w') = 2 /\
    cliente_fills (trace w') = ["Ana"; "Bia"; "Caio"].
Proof.
  eexists; split; [vm_compute; reflexivity|].
  repeat split; simpl; discriminate.
Qed.

(** C9, amended.  The stop button only quits the browser; the engine
    checks no stop signal.  When the stop comes after the first [k] rows
    of a run whose navigation and loading succeeded, the loop still goes
    through every remaining row, so that [sucesso + erro] ends at the
    number of non-blank data rows, with [total] the number of data rows;
    and [quit] is called twice on the browser, once by the stop button
    and once by the [finally] clause of the run. *)
Theorem stop_does_not_cancel raises workbook k a fp w :
  sink_quiet raises -> opens raises -> driver a = true ->
  exists w',
    run_automation_stopped raises workbook k a fp w = (Ok tt, w') /\
    total (stats w') = length (tl (workbook fp)) /\
    sucesso (stats w') + erro (stats w') = count_nonblank (tl (workbook fp)) /\
    count_quits (trace w') = count_quits (trace w) + 2 /\
    is_running w' = false.
Proof.
  intros Hq Ho Hd.
  set (wa := set_automation (Some a) w).
  destruct (for_rows_returns raises a (firstn k (tl (workbook fp))) 1 (started workbook a fp wa))
    as (w2 & Hr2 & Hout2 & Ha2 & _ & Hq2).
  destruct (for_rows_returns raises a (skipn k (tl (workbook fp))) (1 + k)
              (snd (_stop_automation raises w2)))
    as (w4 & Hr4 & Hout4 & _ & _ & Hq4).
  pose proof (processar_planilha_interleaved_run raises workbook
                (_stop_automation raises) k a fp wa w2 w4 Hq Ho Hr2 Hr4) as Hrun.
  destruct (run_automation_of_run raises _ a w _ _ Hd Hrun) as (w' & Hw & Hs & Hi & Hc).
  exists w'; split; [exact Hw|].
  destruct (started_quiet workbook a fp wa) as (Has & _ & _ & Hqs).
  assert (Hauto : automation w2 = Some a) by (rewrite Ha2, Has; reflexivity).
  destruct (stop_automation_run raises a w2 Hauto Hd) as [Hst Hqt].
  destruct (outcomes_counts _ _ _ _ Hout2) as [Ht2 Hc2].
  destruct (outcomes_counts _ _ _ _ Hout4) as [Ht4 Hc4].
  rewrite Hst in Ht4, Hc4.
  rewrite started_stats in Ht2, Hc2; simpl in Ht2, Hc2.
  destruct (finished_quiet a w4) as (_ & _ & _ & Hqf).
  rewrite Hs, finished_stats.
  repeat split.
  - congruence.
  - rewrite Hc4, Hc2, <- count_nonblank_app, firstn_skipn; reflexivity.
  - rewrite Hc, Hqf, Hq4, Hqt, Hq2, Hqs; unfold wa; simpl; lia.
  - exact Hi.
Qed.

Lemma stop_does_not_cancel_witness :
  sink_quiet dead_after_quit /\ opens dead_after_quit /\
  exists w',
    run_automation_stopped dead_after_quit (book [row_ana; row_bia; row_caio]) 1
      robot "dados.xlsx" fresh = (Ok tt, w') /\
    total (stats w') = 3 /\
    sucesso (stats w') + erro (stats w') = 3 /\
    count_quits (trace w') = 2 /\
    is_running w' = false.
Proof.
  assert (Hq : sink_quiet dead_after_quit) by (intros h m c t; reflexivity).
  assert (Ho : opens dead_after_quit) by (split; intros; reflexivity).
  split; [exact Hq|]. split; [exact Ho|].
  exact (stop_does_not_cancel dead_after_quit (book [row_ana; row_bia; row_caio]) 1
           robot "dados.xlsx" fresh Hq Ho eq_refl).
Defined.

(** ** Further properties of the engine *)

(** *** Driving one record, call by call *)

Lemma attempt_fine raises h acts :
  (forall h' a, In a acts -> raises h' a = None) ->
  attempt raises h acts = (h ++ acts, None).
Proof.
  revert h; induction acts as [|a rest IH]; intros h Hf; simpl.
  - now rewrite app_nil_r.
  - rewrite (Hf h a) by now left.
    rewrite IH by (intros; apply Hf; now right).
    now rewrite <- app_assoc.
Qed.

Lemma attempt_prefix raises h acts :
  exists done rest,
    acts = done ++ rest /\
    fst (attempt raises h acts) = h ++ done /\
    (snd (attempt raises h acts) = None -> rest = []) /\
    (forall e, snd (attempt raises h acts) = Some e ->
       exists pre a, done = pre ++ [a] /\ raises (h ++ pre) a = Some e) /\
    (forall pre a post, done = pre ++ a :: post -> post <> [] ->
       raises (h ++ pre) a = None).
Proof.
  revert h; induction acts as [|a tl_acts IH]; intros h; simpl.
  - exists [], []; simpl; rewrite app_nil_r; repeat split; auto.
    + intros e E; discriminate E.
    + intros [|x pre] b post E; discriminate E.
  - destruct (raises h a) as [e|] eqn:Ha.
    + exists [a], tl_acts; simpl; repeat split; auto.
      * intros E; discriminate E.
      * intros e' [= <-]; exists [], a; simpl; now rewrite app_nil_r.
      * intros [|x [|y pre]] b post E Hpost; simpl in E.
        -- injection E as <- <-; now destruct Hpost.
        -- discriminate E.
        -- discriminate E.
    + destruct (IH (h ++ [a])) as (done & rest & Hacts & Hf & Hs & Hlast & Hmid).
      exists (a :: done), rest; simpl; repeat split.
      * now rewrite Hacts at 1.
      * rewrite Hf, <- app_assoc; reflexivity.
      * exact Hs.
      * intros e E; destruct (Hlast e E) as (pre & b & -> & Hb).
        exists (a :: pre), b; split; [reflexivity|].
        now rewrite <- app_assoc in Hb.
      * intros [|x pre] b post E Hpost; simpl in E; injection E as <- E.
        -- now rewrite app_nil_r.
        -- specialize (Hmid pre b post E Hpost).
           now rewrite <- app_assoc in Hmid.
Qed.

(** X1.  A failure of the clear button is not a failure of the record:
    when the three fills, the selection and the submit return, whatever
    the click on the clear button does, [preencher_produto] makes all six
    calls and returns [True], and the row is counted as a success. *)
Theorem clear_failure_is_not_fatal raises self index r p w :
  (forall h a, In a (fill_actions p) -> raises h a = None) ->
  sink_quiet raises ->
  is_blank r = false -> parse_row r = Ok p ->
  preencher_produto raises p w = (Ok true, emit (form_actions p) w) /\
  exists w',
    loop_body raises self index r w = (Ok tt, w') /\
    stats w' = inc_sucesso (stats w).
Proof.
  intros Hf Hq Hb Hp.
  assert (Hrun : forall w0,
             preencher_produto raises p w0 = (Ok true, emit (form_actions p) w0)).
  { intros w0; rewrite preencher_produto_run, attempt_fine by exact Hf; simpl.
    f_equal; apply world_eq; simpl; auto.
    now rewrite <- app_assoc. }
  split; [apply Hrun|].
  rewrite (loop_body_valid _ _ _ _ _ p), report_progress_quiet by assumption.
  cbv zeta; rewrite attempt_fine by exact Hf; simpl.
  eexists; split; reflexivity.
Qed.

Lemma clear_failure_is_not_fatal_witness :
  clear_raises "no such element" [] ClickClear = Some "no such element" /\
  preencher_produto (clear_raises "no such element") (mkProduct "Ana" "Mesa" 2 "Moveis") fresh
  = (Ok true,
     emit [ClickClear; FillText "cliente" "Ana"; FillText "produto" "Mesa";
           FillText "quantidade" "2"; SelectValue "Moveis"; ClickSave] fresh) /\
  exists w',
    loop_body (clear_raises "no such element") robot 1 row_ana fresh = (Ok tt, w') /\
    stats w' = mkStats 0 1 0 [].
Proof.
  split; [reflexivity|].
  apply (clear_failure_is_not_fatal (clear_raises "no such element") robot 1 row_ana
           (mkProduct "Ana" "Mesa" 2 "Moveis") fresh).
  - intros h a [<-|[<-|[<-|[<-|[<-|[]]]]]]; reflexivity.
  - intros h m c t; reflexivity.
  - reflexivity.
  - reflexivity.
Defined.


(** *** The calls of a run, whatever is raised *)

Lemma extends_refl w : extends [] w w.
Proof. unfold extends; now rewrite app_nil_r. Qed.

Lemma extends_trans e1 e2 w w1 w2 :
  extends e1 w w1 -> extends e2 w1 w2 -> extends (e1 ++ e2) w w2.
Proof.
  intros (Ht1 & Ha1 & Hr1) (Ht2 & Ha2 & Hr2); unfold extends.
  rewrite Ht2, Ht1, Ha2, Ha1, Hr2, Hr1, app_assoc; auto.
Qed.

Lemma extends_emit evs w : extends evs w (emit evs w).
Proof. repeat split. Qed.

Lemma extends_set_stats evs s w w' : extends evs w w' -> extends evs w (set_stats s w').
Proof. intros (Ht & Ha & Hr); repeat split; assumption. Qed.

Lemma fill_actions_form_calls p : Forall (fun a => is_form_call a = true) (fill_actions p).
Proof. repeat constructor. Qed.

Lemma outcome_total index r s s' : outcome index r s s' -> total s' = total s.
Proof. intros [Hb ->|p Hb _ ->|e Hb _ ->|p e Hb _ ->]; reflexivity. Qed.

Lemma outcome_sucesso index r s s' :
  outcome index r s s' -> sucesso s <= sucesso s' /\ sucesso s' <= sucesso s + 1.
Proof. intros [Hb ->|p Hb _ ->|e Hb _ ->|p e Hb _ ->]; simpl; lia. Qed.

Lemma loop_body_events raises self index r w :
  exists w' evs,
    loop_body raises self index r w = (Ok tt, w') /\
    extends evs w w' /\
    outcome index r (stats w) (stats w') /\
    Forall (row_event index 1 (total (stats w))) evs /\
    sucesso (stats w') <= sucesso (stats w) + count_submits evs /\
    count_submits evs <= length (valid_products [r]).
Proof.
  simpl valid_products.
  destruct (is_blank r) eqn:Hb.
  - exists w, []; rewrite loop_body_blank by assumption.
    split; [reflexivity|]. split; [apply extends_refl|].
    split; [now apply skipped|]. split; [constructor|].
    unfold count_submits; simpl; lia.
  - destruct (parse_row r) as [p|e] eqn:Hp.
    + rewrite (loop_body_valid _ _ _ _ _ p) by assumption.
      assert (Hdrive : forall pre,
        Forall (row_event index 1 (total (stats w))) pre -> count_submits pre = 0 ->
        exists w' evs,
          (let run := attempt raises (trace (emit pre w) ++ [ClickClear]) (fill_actions p) in
           match snd run with
           | None =>
               (Ok tt, set_stats (inc_sucesso (stats (emit pre w)))
                         (set_trace (fst run) (emit pre w)))
           | Some _ =>
               (Ok tt,
                set_stats
                  (record_failure (mkErro (index + 1) (row_label r) "Falha ao submeter")
                     (stats (emit pre w)))
                  (set_trace (fst run) (emit pre w)))
           end) = (Ok tt, w') /\
          extends evs w w' /\
          outcome index r (stats w) (stats w') /\
          Forall (row_event index 1 (total (stats w))) evs /\
          sucesso (stats w') <= sucesso (stats w) + count_submits evs /\
          count_submits evs <= 1).
      { intros pre Hpre Hsub; cbv zeta.
        destruct (attempt_prefix raises (trace (emit pre w) ++ [ClickClear]) (fill_actions p))
          as (done & rest & Hacts & Hf & Hs & _).
        assert (Hform : Forall (fun a => is_form_call a = true) done).
        { pose proof (fill_actions_form_calls p) as H.
          rewrite Hacts in H; apply Forall_app in H; tauto. }
        assert (Hle : count_submits done + count_submits rest = 1).
        { rewrite <- count_submits_app, <- Hacts; reflexivity. }
        assert (Hev : Forall (row_event index 1 (total (stats w)))
                        (pre ++ ClickClear :: done)).
        { apply Forall_app; split; [exact Hpre|].
          constructor; [now left|].
          eapply Forall_impl; [|exact Hform]; intros a Ha; now left. }
        assert (Hcount : count_submits (pre ++ ClickClear :: done) = count_submits done).
        { rewrite count_submits_app, Hsub; reflexivity. }
        rewrite Hf.
        destruct (snd (attempt raises _ _)) as [e|] eqn:Hsnd.
        - eexists; exists (pre ++ ClickClear :: done); split; [reflexivity|].
          repeat split; try exact Hev.
          + unfold emit; cbn [trace set_trace set_stats].
            rewrite <- !app_assoc; reflexivity.
          + now apply (failed _ _ _ _ p "Falha ao submeter").
          + simpl; lia.
          + rewrite Hcount; lia.
        - rewrite (Hs eq_refl) in Hle.
          eexists; exists (pre ++ ClickClear :: done); split; [reflexivity|].
          repeat split; try exact Hev.
          + unfold emit; cbn [trace set_trace set_stats].
            rewrite <- !app_assoc; reflexivity.
          + now apply (succeeded _ _ _ _ p).
          + rewrite Hcount; change (count_submits []) with 0 in Hle; simpl; lia.
          + rewrite Hcount; lia. }
      unfold _report_progress; destruct (progress_callback self).
      * rewrite perform_run.
        destruct (raises (trace w) _) as [e|].
        -- eexists; exists [Callback (processando p) index (total (stats w))].
           split; [reflexivity|].
           repeat split.
           ++ now apply (failed _ _ _ _ p e).
           ++ constructor; [|constructor].
              right; eexists; eexists; split; [reflexivity|]; lia.
           ++ unfold count_submits; simpl; lia.
           ++ unfold count_submits; simpl; lia.
        -- apply (Hdrive [Callback (processando p) index (total (stats w))]).
           ++ constructor; [|constructor].
              right; eexists; eexists; split; [reflexivity|]; lia.
           ++ reflexivity.
      * unfold ret.
        destruct (Hdrive []) as (w' & evs & H); [constructor|reflexivity|].
        rewrite emit_nil in H; eauto.
    + rewrite (loop_body_rejected _ _ _ _ _ e) by assumption.
      eexists; exists []; split; [reflexivity|].
      repeat split.
      * simpl; now rewrite app_nil_r.
      * now apply (rejected _ _ _ _ e).
      * constructor.
      * unfold count_submits; simpl; lia.
      * unfold count_submits; simpl; lia.
Qed.

Lemma row_event_widen index len index' len' t a :
  index' <= index -> index + len <= index' + len' ->
  row_event index len t a -> row_event index' len' t a.
Proof.
  intros H1 H2 [Hf|(m & c & -> & Hlo & Hhi)]; [now left|].
  right; exists m, c; repeat split; lia.
Qed.

Lemma for_rows_events raises self rows : forall index w,
  exists w' evs,
    for_rows raises self index rows w = (Ok tt, w') /\
    extends evs w w' /\
    outcomes index rows (stats w) (stats w') /\
    Forall (row_event index (length rows) (total (stats w))) evs /\
    sucesso (stats w') <= sucesso (stats w) + count_submits evs /\
    count_submits evs <= length (valid_products rows).
Proof.
  induction rows as [|r rest IH]; intros index w.
  - exists w, []; simpl.
    split; [reflexivity|]. split; [apply extends_refl|].
    split; [constructor|]. split; [constructor|].
    unfold count_submits; simpl; lia.
  - destruct (loop_body_events raises self index r w)
      as (w1 & e1 & Hr1 & Hx1 & Ho1 & Hf1 & Hs1 & Hc1).
    destruct (IH (S index) w1) as (w2 & e2 & Hr2 & Hx2 & Ho2 & Hf2 & Hs2 & Hc2).
    exists w2, (e1 ++ e2).
    split; [simpl for_rows; now erewrite bind_ok by exact Hr1|].
    split; [eapply extends_trans; eassumption|].
    split; [econstructor; eassumption|].
    rewrite (outcome_total _ _ _ _ Ho1) in Hf2.
    split.
    + apply Forall_app; split.
      * eapply Forall_impl; [|exact Hf1].
        intros a; apply row_event_widen; simpl; lia.
      * eapply Forall_impl; [|exact Hf2].
        intros a; apply row_event_widen; simpl; lia.
    + rewrite count_submits_app, (valid_products_cons r rest), length_app.
      split; lia.
Qed.

Lemma report_progress_events raises self m c t w r w' :
  _report_progress raises self m c t w = (r, w') ->
  exists evs, w' = emit evs w /\ (evs = [] \/ evs = [Callback m c t]).
Proof.
  unfold _report_progress; destruct (progress_callback self).
  - rewrite perform_run; intros [= _ <-]; eauto.
  - intros [= _ <-]; exists []; now rewrite emit_nil; auto.
Qed.

Lemma count_gets_app t1 t2 : count_gets (t1 ++ t2) = count_gets t1 + count_gets t2.
Proof. unfold count_gets; now rewrite filter_app, length_app. Qed.

Lemma bind_assoc {A B C : Type} (m : M A) (k : A -> M B) (h : B -> M C) w :
  bind (bind m k) h w = bind m (fun a => bind (k a) h) w.
Proof. unfold bind; destruct (m w) as [[a|e] w1]; reflexivity. Qed.

(** The statements before the loop, as one computation of the rows. *)
Lemma body_split raises workbook self fp w :
  (navigate raises self ;;
   rows <- load_rows raises workbook fp ;;
   modify_stats (with_total (length rows)) ;;
   _report_progress raises self
     ("Iniciando processamento de " ++ str_of_nat (length rows) ++ " produtos") 0 0 ;;
   for_rows raises self 1 rows ;;
   report_done raises self) w
  = bind (navigate raises self ;;
          rows <- load_rows raises workbook fp ;;
          modify_stats (with_total (length rows)) ;;
          _report_progress raises self
            ("Iniciando processamento de " ++ str_of_nat (length rows) ++ " produtos") 0 0 ;;
          ret rows)
      (fun rows => for_rows raises self 1 rows ;; report_done raises self) w.
Proof.
  symmetry.
  rewrite bind_assoc; apply bind_ext; intros _ w1.
  rewrite bind_assoc; apply bind_ext; intros rows w2.
  rewrite bind_assoc; apply bind_ext; intros _ w3.
  rewrite bind_assoc; apply bind_ext; intros _ w4.
  reflexivity.
Qed.

Lemma setup_callback m : setup_event (Callback m 0 0).
Proof. left; eauto. Qed.

Lemma setup_get u : setup_event (Get u).
Proof. right; left; eauto. Qed.

Lemma setup_load f : setup_event (LoadWorkbook f).
Proof. right; right; eauto. Qed.

Ltac setup_events :=
  repeat first
    [ apply Forall_nil
    | apply Forall_cons;
      [first [apply setup_callback | apply setup_get | apply setup_load]|] ].

Lemma prologue_shape raises workbook self fp w :
  exists r w1 pre,
    (navigate raises self ;;
     rows <- load_rows raises workbook fp ;;
     modify_stats (with_total (length rows)) ;;
     _report_progress raises self
       ("Iniciando processamento de " ++ str_of_nat (length rows) ++ " produtos") 0 0 ;;
     ret rows) (set_stats (mkStats 0 0 0 []) w) = (r, w1) /\
    extends pre w w1 /\
    Forall setup_event pre /\
    count_gets pre <= 1 /\
    match r with
    | Ok rows =>
        rows = tl (workbook fp) /\
        stats w1 = mkStats (length (tl (workbook fp))) 0 0 [] /\
        In (Get (url self)) pre /\ In (LoadWorkbook fp) pre
    | Raise _ =>
        sucesso (stats w1) = 0 /\ erro (stats w1) = 0 /\ erros_detalhados (stats w1) = []
    end.
Proof.
  set (w0 := set_stats (mkStats 0 0 0 []) w).
  (* navigate *)
  unfold navigate at 1.
  rewrite bind_assoc; unfold bind at 1.
  destruct (_report_progress raises self ("Acessando " ++ url self) 0 0 w0)
    as [[[]|e] wa] eqn:Hn1;
    destruct (report_progress_events _ _ _ _ _ _ _ _ Hn1) as (e1 & -> & He1).
  2:{ exists (Raise e), (emit e1 w0), e1; split; [reflexivity|].
      split; [repeat split|].
      destruct He1 as [->| ->];
        (split; [setup_events|split; [unfold count_gets; simpl; lia|repeat split]]). }
  unfold bind at 1; rewrite perform_run.
  destruct (raises (trace (emit e1 w0)) (Get (url self))) as [e|].
  { exists (Raise e), (emit [Get (url self)] (emit e1 w0)), (e1 ++ [Get (url self)]).
    split; [reflexivity|].
    split; [repeat split; unfold emit; simpl; now rewrite app_assoc|].
    destruct He1 as [->| ->];
      (split; [setup_events|split; [unfold count_gets; simpl; lia|repeat split]]). }
  (* load_rows *)
  unfold load_rows at 1.
  rewrite bind_assoc; unfold bind at 1; rewrite perform_run.
  destruct (raises (trace (emit [Get (url self)] (emit e1 w0))) (LoadWorkbook fp)) as [e|].
  { exists (Raise e), (emit [LoadWorkbook fp] (emit [Get (url self)] (emit e1 w0))),
      (e1 ++ [Get (url self); LoadWorkbook fp]).
    split; [reflexivity|].
    split; [repeat split; unfold emit; simpl; now rewrite <- !app_assoc|].
    destruct He1 as [->| ->];
      (split; [setup_events|split; [unfold count_gets; simpl; lia|repeat split]]). }
  unfold bind at 1, ret at 1.
  unfold bind at 1, modify_stats at 1.
  unfold bind at 1.
  match goal with
  | |- context [_report_progress raises self ?m 0 0 ?wc] =>
      destruct (_report_progress raises self m 0 0 wc) as [[[]|e] wd] eqn:Hn2;
      destruct (report_progress_events _ _ _ _ _ _ _ _ Hn2) as (e2 & -> & He2)
  end.
  - eexists; eexists; exists (e1 ++ [Get (url self); LoadWorkbook fp] ++ e2).
    split; [reflexivity|].
    split; [repeat split; unfold emit; simpl; now rewrite <- !app_assoc|].
    split; [|split].
    + destruct He1 as [->| ->]; destruct He2 as [->| ->]; simpl; setup_events.
    + destruct He1 as [->| ->]; destruct He2 as [->| ->]; unfold count_gets; simpl; lia.
    + repeat split; apply in_or_app; right; simpl; auto.
  - eexists; eexists; exists (e1 ++ [Get (url self); LoadWorkbook fp] ++ e2).
    split; [reflexivity|].
    split; [repeat split; unfold emit; simpl; now rewrite <- !app_assoc|].
    split; [|split].
    + destruct He1 as [->| ->]; destruct He2 as [->| ->]; simpl; setup_events.
    + destruct He1 as [->| ->]; destruct He2 as [->| ->]; unfold count_gets; simpl; lia.
    + repeat split.
Qed.

Lemma report_done_events raises self w r w' :
  report_done raises self w = (r, w') ->
  stats w' = stats w /\
  exists evs, w' = emit evs w /\ (evs = [] \/ exists m, evs = [Callback m 0 0]).
Proof.
  intros H; split; [eapply report_done_stats; exact H|].
  revert H; unfold report_done, bind, get_stats; intros H.
  destruct (report_progress_events _ _ _ _ _ _ _ _ H) as (evs & -> & [->| ->]); eauto.
Qed.

Lemma count_submits_setup pre : Forall setup_event pre -> count_submits pre = 0.
Proof.
  induction 1 as [|a l Ha _ IH]; [reflexivity|].
  change (count_submits [a] + count_submits l = 0) || idtac.
  destruct Ha as [(m & ->)|[(u & ->)|(f & ->)]]; exact IH.
Qed.

Lemma form_calls_setup pre : Forall setup_event pre -> form_calls pre = [].
Proof.
  induction 1 as [|a l Ha _ IH]; [reflexivity|].
  destruct Ha as [(m & ->)|[(u & ->)|(f & ->)]]; exact IH.
Qed.

Lemma run_event_not_get n evs : Forall (run_event n) evs -> count_gets evs = 0.
Proof.
  induction 1 as [|a l Ha _ IH]; [reflexivity|].
  destruct Ha as [Hf|[(m & c & -> & _)|(m & ->)]]; try exact IH.
  destruct a; try discriminate Hf; exact IH.
Qed.

(** The shape of every run: what is called, in which phase, and what
    the returned [stats] hold, whatever the collaborators raise. *)
Lemma processar_planilha_shape raises workbook self fp w :
  exists st w' pre evs ds crit,
    processar_planilha raises workbook self fp w = (Ok st, w') /\
    st = stats w' /\
    extends (pre ++ evs) w w' /\
    Forall setup_event pre /\
    count_gets pre <= 1 /\
    (evs = [] \/ (In (Get (url self)) pre /\ In (LoadWorkbook fp) pre)) /\
    Forall (run_event (length (tl (workbook fp)))) evs /\
    sucesso st <= count_submits evs /\
    count_submits evs <= length (valid_products (tl (workbook fp))) /\
    erros_detalhados st = ds ++ crit /\
    erro st = length ds /\
    Forall (fun d => 2 <= d_linha d /\ d_linha d <= length (tl (workbook fp)) + 1) ds /\
    (crit = [] \/ exists e, crit = [critical_entry e]).
Proof.
  destruct (prologue_shape raises workbook self fp w)
    as (r & w1 & pre & Hp & Hx & Hsetup & Hg & Hr).
  unfold processar_planilha.
  erewrite bind_ok by reflexivity.
  destruct r as [rows|e].
  - destruct Hr as (-> & Hs1 & Hinget & Hinload).
    destruct (for_rows_events raises self (tl (workbook fp)) 1 w1)
      as (w2 & evs & Hr2 & Hx2 & Ho & Hev & Hsuc & Hsub).
    rewrite Hs1 in Ho, Hev, Hsuc; cbn [total sucesso] in Hev, Hsuc.
    destruct (outcomes_failures _ _ _ _ Ho) as (ds & Hds & Hn & Hlines & _).
    cbn [erros_detalhados erro] in Hds, Hn; simpl in Hds, Hn.
    assert (Hrun : Forall (run_event (length (tl (workbook fp)))) evs).
    { eapply Forall_impl; [|exact Hev].
      intros a [Hf|(m & c & -> & Hlo & Hhi)]; [now left|].
      right; left; exists m, c; repeat split; lia. }
    assert (Hrange : Forall (fun d => 2 <= d_linha d /\
                                      d_linha d <= length (tl (workbook fp)) + 1) ds).
    { eapply Forall_impl; [|exact Hlines].
      intros d (i & r0 & Hi & _ & Hl).
      assert (i < length (tl (workbook fp))) by (apply nth_error_Some; congruence).
      lia. }
    destruct (report_done raises self w2) as [r3 w3] eqn:Hd.
    destruct (report_done_events _ _ _ _ _ Hd) as (Hs3 & e3 & -> & He3).
    assert (Hrun3 : Forall (run_event (length (tl (workbook fp)))) (evs ++ e3)).
    { apply Forall_app; split; [exact Hrun|].
      destruct He3 as [->|(m & ->)]; [constructor|].
      constructor; [right; right; eauto|constructor]. }
    assert (Hsub3 : count_submits (evs ++ e3) = count_submits evs).
    { rewrite count_submits_app; destruct He3 as [->|(m & ->)];
        unfold count_submits; simpl; lia. }
    assert (Hx3 : extends (pre ++ evs ++ e3) w (emit e3 w2)).
    { eapply extends_trans; [exact Hx|].
      eapply extends_trans; [exact Hx2|apply extends_emit]. }
    assert (Hbody :
      (navigate raises self ;;
       rows <- load_rows raises workbook fp ;;
       modify_stats (with_total (length rows)) ;;
       _report_progress raises self
         ("Iniciando processamento de " ++ str_of_nat (length rows) ++ " produtos") 0 0 ;;
       for_rows raises self 1 rows ;;
       report_done raises self) (set_stats (mkStats 0 0 0 []) w) = (r3, emit e3 w2)).
    { rewrite body_split; erewrite bind_ok by exact Hp.
      erewrite bind_ok by exact Hr2; exact Hd. }
    destruct r3 as [[]|e].
    + erewrite bind_ok by (apply try_except_ok; exact Hbody).
      unfold get_stats.
      eexists; eexists; exists pre, (evs ++ e3), ds, [].
      split; [reflexivity|]. split; [reflexivity|].
      split; [exact Hx3|].
      rewrite Hs3, app_nil_r.
      repeat split; auto; lia.
    + erewrite bind_ok
        by (erewrite try_except_raise by exact Hbody; apply critical_returns).
      unfold get_stats.
      eexists; eexists; exists pre, (evs ++ e3), ds, [critical_entry e].
      split; [reflexivity|]. split; [reflexivity|].
      cbn [stats set_stats append_erro sucesso erro erros_detalhados].
      rewrite Hs3, Hds.
      split; [apply extends_set_stats; exact Hx3|].
      repeat split; eauto; lia.
  - destruct Hr as (Hs & He & Hd).
    assert (Hbody :
      (navigate raises self ;;
       rows <- load_rows raises workbook fp ;;
       modify_stats (with_total (length rows)) ;;
       _report_progress raises self
         ("Iniciando processamento de " ++ str_of_nat (length rows) ++ " produtos") 0 0 ;;
       for_rows raises self 1 rows ;;
       report_done raises self) (set_stats (mkStats 0 0 0 []) w) = (Raise e, w1)).
    { rewrite body_split; now apply bind_raise. }
    erewrite bind_ok
      by (erewrite try_except_raise by exact Hbody; apply critical_returns).
    unfold get_stats.
    eexists; eexists; exists pre, [], [], [critical_entry e].
    split; [reflexivity|]. split; [reflexivity|].
    cbn [stats set_stats append_erro sucesso erro erros_detalhados].
    rewrite Hs, He, Hd, app_nil_r.
    split; [apply extends_set_stats; exact Hx|].
    repeat split; eauto; try constructor; unfold count_submits; simpl; lia.
Qed.

(** X3.  Every counted success was submitted: in every run, whatever the
    browser and the sink raise, the number of clicks on the save button is
    at least [sucesso] and at most the number of accepted rows, so no row
    is submitted twice and no success is counted without a submit. *)
Theorem successes_were_submitted raises workbook self fp w :
  exists st w' k,
    processar_planilha raises workbook self fp w = (Ok st, w') /\
    count_submits (trace w') = count_submits (trace w) + k /\
    sucesso st <= k /\
    k <= length (valid_products (tl (workbook fp))).
Proof.
  destruct (processar_planilha_shape raises workbook self fp w)
    as (st & w' & pre & evs & ds & crit & Hrun & _ & (Ht & _) & Hsetup & _ & _ & _
        & Hsuc & Hsub & _).
  exists st, w', (count_submits evs).
  split; [exact Hrun|].
  rewrite Ht, !count_submits_app, (count_submits_setup pre Hsetup).
  repeat split; auto.
Qed.

(** X4.  The failure list of every run, whatever is raised: first one
    entry per counted failure, each with the line of a data row (between 2
    and the number of data rows plus 1), then at most one critical entry,
    with line 0 and the critical marker.  So [erro] is the length of the
    list, or one less when the run ended on a critical error. *)
Theorem failure_list_structure raises workbook self fp w :
  exists st w' ds crit,
    processar_planilha raises workbook self fp w = (Ok st, w') /\
    erros_detalhados st = ds ++ crit /\
    erro st = length ds /\
    Forall (fun d => 2 <= d_linha d /\ d_linha d <= length (tl (workbook fp)) + 1) ds /\
    (crit = [] \/ exists e, crit = [critical_entry e]).
Proof.
  destruct (processar_planilha_shape raises workbook self fp w)
    as (st & w' & pre & evs & ds & crit & Hrun & _ & _ & _ & _ & _ & _ & _ & _
        & Hds & Hn & Hrange & Hcrit).
  exists st, w', ds, crit; auto.
Qed.

(** X5.  The counters of every progress report are in range: each call of
    the progress callback made by a run carries either no counters
    ([current = 0], [total = 0]) or the position of a data row,
    [1 <= current <= total], against the number of data rows, so a consumer
    computing [current / total] under [total > 0] stays within 0 and 1. *)
Theorem progress_counters_in_range raises workbook self fp w :
  exists st w' evs,
    processar_planilha raises workbook self fp w = (Ok st, w') /\
    trace w' = trace w ++ evs /\
    forall m c t,
      In (Callback m c t) evs ->
      (c = 0 /\ t = 0) \/
      (1 <= c /\ c <= t /\ t = length (tl (workbook fp))).
Proof.
  destruct (processar_planilha_shape raises workbook self fp w)
    as (st & w' & pre & evs & ds & crit & Hrun & _ & (Ht & _) & Hsetup & _ & _ & Hev & _).
  exists st, w', (pre ++ evs).
  split; [exact Hrun|]. split; [exact Ht|].
  intros m c t Hin; apply in_app_or in Hin; destruct Hin as [Hin|Hin].
  - rewrite Forall_forall in Hsetup.
    destruct (Hsetup _ Hin) as [(m' & [= _ -> ->])|[(u & E)|(f & E)]];
      [now left|discriminate E|discriminate E].
  - rewrite Forall_forall in Hev.
    destruct (Hev _ Hin) as [Hf|[(m' & c' & [= _ -> ->] & Hlo & Hhi)|(m' & [= _ -> ->])]].
    + discriminate Hf.
    + right; auto.
    + now left.
Qed.

(** X6.  The page is loaded at most once per run and before the form is
    touched: the calls of a run split into a first part without any call
    on the form and a second part without any navigation, with at most
    one [get] in all; and calls on the form are made only after both the
    navigation and the loading of the workbook were called. *)
Theorem page_loaded_once_before_the_form raises workbook self fp w :
  exists st w' pre evs,
    processar_planilha raises workbook self fp w = (Ok st, w') /\
    trace w' = trace w ++ pre ++ evs /\
    form_calls pre = [] /\
    count_gets evs = 0 /\
    count_gets (pre ++ evs) <= 1 /\
    (form_calls evs <> [] ->
     In (Get (url self)) pre /\ In (LoadWorkbook fp) pre).
Proof.
  destruct (processar_planilha_shape raises workbook self fp w)
    as (st & w' & pre & evs & ds & crit & Hrun & _ & (Ht & _) & Hsetup & Hg & Hin & Hev & _).
  exists st, w', pre, evs.
  split; [exact Hrun|]. split; [exact Ht|].
  split; [exact (form_calls_setup pre Hsetup)|].
  pose proof (run_event_not_get _ _ Hev) as Hno.
  split; [exact Hno|].
  split; [rewrite count_gets_app; lia|].
  intros Hne; destruct Hin as [->|Hin]; [now destruct Hne|exact Hin].
Qed.

(** *** Failing to open the workbook, and sheets without data *)

(** X7.  A workbook that cannot be loaded ends the run like a failed
    navigation: when [navigate] returns and [load_workbook] raises, all
    counters stay at 0, the failure list is the single critical entry
    with the message of the error, and nothing is called after the
    attempt to load. *)
Theorem workbook_failure raises workbook self fp w w1 e :
  navigate raises self w = (Ok tt, w1) ->
  raises (trace w1) (LoadWorkbook fp) = Some e ->
  exists st w',
    processar_planilha raises workbook self fp w = (Ok st, w') /\
    st = mkStats 0 0 0 [critical_entry e] /\
    trace w' = trace w1 ++ [LoadWorkbook fp].
Proof.
  intros Hn Hl.
  unfold processar_planilha.
  erewrite bind_ok by reflexivity.
  erewrite bind_ok.
  2:{ erewrite try_except_raise; [apply critical_returns|].
      erewrite bind_ok by (rewrite navigate_set_stats, Hn; reflexivity).
      apply bind_raise.
      unfold load_rows; apply bind_raise.
      rewrite perform_run; cbn [fst snd trace set_stats]; rewrite Hl; reflexivity. }
  unfold get_stats.
  eexists; eexists; split; [reflexivity|]; split; reflexivity.
Qed.

Lemma workbook_failure_witness :
  exists st w',
    processar_planilha (load_raises "File is not a zip file") (book [row_ana])
      robot "dados.xlsx" fresh = (Ok st, w') /\
    st = mkStats 0 0 0 [critical_entry "File is not a zip file"] /\
    trace w' = [Callback "Acessando https://devaprender-contabil.netlify.app/" 0 0;
                Get "https://devaprender-contabil.netlify.app/";
                LoadWorkbook "dados.xlsx"].
Proof.
  apply (workbook_failure (load_raises "File is not a zip file") (book [row_ana])
           robot "dados.xlsx" fresh
           (emit [Callback "Acessando https://devaprender-contabil.netlify.app/" 0 0;
                  Get "https://devaprender-contabil.netlify.app/"] fresh)
           "File is not a zip file").
  - reflexivity.
  - reflexivity.
Defined.

(** X8.  A sheet without data rows, be it empty or reduced to its header,
    is a run without work: when navigation and loading succeed and the
    sink does not raise, the run returns all counters at 0 and an empty
    failure list, and nothing is called on the form. *)
Theorem no_data_rows raises workbook self fp w :
  sink_quiet raises -> opens raises ->
  length (workbook fp) <= 1 ->
  exists st w',
    processar_planilha raises workbook self fp w = (Ok st, w') /\
    st = mkStats 0 0 0 [] /\
    form_calls (trace w') = form_calls (trace w).
Proof.
  intros Hq Ho Hlen.
  assert (Htl : tl (workbook fp) = []).
  { destruct (workbook fp) as [|h [|r rest]]; simpl in *; auto; lia. }
  assert (Hr : for_rows raises self 1 (tl (workbook fp)) (started workbook self fp w)
               = (Ok tt, started workbook self fp w)) by (rewrite Htl; reflexivity).
  exists (stats (started workbook self fp w)), (finished self (started workbook self fp w)).
  split; [exact (processar_planilha_run raises workbook self fp w _ Hq Ho Hr)|].
  split; [rewrite started_stats, Htl; reflexivity|].
  destruct (finished_quiet self (started workbook self fp w)) as (_ & _ & Hf & _).
  destruct (started_quiet workbook self fp w) as (_ & _ & Hs & _).
  now rewrite Hf, Hs.
Qed.

Lemma no_data_rows_witness :
  sink_quiet never_raises /\ opens never_raises /\
  (exists st w',
      processar_planilha never_raises (book []) robot "dados.xlsx" fresh = (Ok st, w') /\
      st = mkStats 0 0 0 [] /\ form_calls (trace w') = []) /\
  exists st w',
    processar_planilha never_raises (fun _ => []) robot "dados.xlsx" fresh = (Ok st, w') /\
    st = mkStats 0 0 0 [] /\ form_calls (trace w') = [].
Proof.
  assert (Hq : sink_quiet never_raises) by (intros h m c t; reflexivity).
  assert (Ho : opens never_raises) by (split; intros; reflexivity).
  split; [exact Hq|]. split; [exact Ho|].
  split.
  - apply (no_data_rows never_raises (book []) robot "dados.xlsx" fresh Hq Ho).
    simpl; lia.
  - apply (no_data_rows never_raises (fun _ => []) robot "dados.xlsx" fresh Hq Ho).
    simpl; lia.
Defined.

(** *** Rows that are too short or too wide *)

(** X9.  A non-blank row with fewer than four cells is rejected by the
    unpacking itself: its failure reason is the interpreter's message with
    the number of cells found, its label is the second cell when there is
    one and "Desconhecido" otherwise, and nothing is called on the form
    for it. *)
Theorem short_row_rejected raises self index r w :
  is_blank r = false -> length r < 4 ->
  parse_row r =
    Raise ("not enough values to unpack (expected 4, got "
           ++ str_of_nat (length r) ++ ")") /\
  (length r = 1 -> row_label r = CStr "Desconhecido") /\
  (forall c p rest, r = c :: p :: rest -> row_label r = p) /\
  exists w',
    loop_body raises self index r w = (Ok tt, w') /\
    trace w' = trace w /\
    stats w' =
      record_failure
        (mkErro (index + 1) (row_label r)
           ("not enough values to unpack (expected 4, got "
            ++ str_of_nat (length r) ++ ")"))
        (stats w).
Proof.
  intros Hb Hlen.
  assert (Hp : parse_row r =
               Raise ("not enough values to unpack (expected 4, got "
                      ++ str_of_nat (length r) ++ ")")).
  { destruct r as [|a [|b [|c [|d rest]]]]; simpl in Hlen; try lia; reflexivity. }
  split; [exact Hp|].
  split; [destruct r as [|a [|b rest]]; simpl; intros; try discriminate; reflexivity|].
  split; [intros c p rest ->; reflexivity|].
  eexists; split; [apply loop_body_rejected; [exact Hb|exact Hp]|].
  split; reflexivity.
Qed.

Lemma short_row_rejected_witness :
  is_blank row_short = false /\
  parse_row row_short = Raise "not enough values to unpack (expected 4, got 2)" /\
  row_label row_single = CStr "Desconhecido" /\
  exists w',
    loop_body never_raises robot 3 row_short fresh = (Ok tt, w') /\
    trace w' = [] /\
    stats w' =
      mkStats 0 0 1 [mkErro 4 (CStr "Mala") "not enough values to unpack (expected 4, got 2)"].
Proof.
  split; [reflexivity|].
  destruct (short_row_rejected never_raises robot 3 row_short fresh eq_refl)
    as (Hp & _ & _ & Hloop); [simpl; lia|].
  destruct (short_row_rejected never_raises robot 3 row_single fresh eq_refl)
    as (_ & Hlabel & _); [simpl; lia|].
  split; [exact Hp|]. split; [exact (Hlabel eq_refl)|exact Hloop].
Defined.

Lemma loop_body_firstn raises self index r w :
  loop_body raises self index (firstn 4 r) w = loop_body raises self index r w.
Proof. destruct r as [|a [|b [|c [|d rest]]]]; reflexivity. Qed.

Lemma for_rows_firstn raises self rows : forall index w,
  for_rows raises self index (map (firstn 4) rows) w = for_rows raises self index rows w.
Proof.
  induction rows as [|r rest IH]; intros index w; cbn [map for_rows]; [reflexivity|].
  unfold bind; rewrite loop_body_firstn.
  destruct (loop_body raises self index r w) as [[[]|e] w1]; [apply IH|reflexivity].
Qed.

Lemma bind_ret {A B : Type} (a : A) (k : A -> M B) w : bind (ret a) k w = k a w.
Proof. reflexivity. Qed.

(** X10.  Columns beyond the fourth never matter: two workbooks whose
    data rows agree on their first four cells give the same run, with the
    same calls, the same statistics and the same failure entries. *)
Theorem extra_columns_ignored raises wb1 wb2 self fp w :
  map (firstn 4) (tl (wb1 fp)) = map (firstn 4) (tl (wb2 fp)) ->
  processar_planilha raises wb1 self fp w = processar_planilha raises wb2 self fp w.
Proof.
  intros Hrows.
  assert (Hlen : length (tl (wb1 fp)) = length (tl (wb2 fp))).
  { rewrite <- (length_map (firstn 4) (tl (wb1 fp))), Hrows; apply length_map. }
  unfold processar_planilha.
  apply bind_ext; intros _ w0.
  apply bind_cong, try_except_cong.
  apply bind_ext; intros _ w1.
  unfold load_rows; rewrite !bind_assoc.
  apply bind_ext; intros _ w2.
  rewrite !bind_ret; cbv beta.
  unfold row; rewrite Hlen.
  apply bind_ext; intros _ w3.
  apply bind_ext; intros _ w4.
  apply bind_cong.
  rewrite <- (for_rows_firstn raises self (tl (wb1 fp))), Hrows.
  apply for_rows_firstn.
Qed.

Lemma extra_columns_ignored_witness :
  processar_planilha (submit_raises "x") (book [row_ana_wide; row_bia]) robot "dados.xlsx" fresh
  = processar_planilha (submit_raises "x") (book [row_ana; row_bia]) robot "dados.xlsx" fresh.
Proof.
  apply (extra_columns_ignored (submit_raises "x") (book [row_ana_wide; row_bia])
           (book [row_ana; row_bia]) robot "dados.xlsx" fresh).
  reflexivity.
Defined.

(** *** What is typed into the form *)

Lemma lstrip_first s : first_is_space (lstrip s) = false.
Proof.
  induction s as [|c s IH]; simpl; [reflexivity|].
  destruct (is_space c) eqn:Hc; [exact IH|simpl; exact Hc].
Qed.

Lemma rstrip_first s : first_is_space s = false -> first_is_space (rstrip s) = false.
Proof.
  destruct s as [|c s]; simpl; [reflexivity|].
  intros Hc; destruct (rstrip s); [rewrite Hc|]; simpl; auto.
Qed.

Lemma rstrip_last s : last_is_space (rstrip s) = false.
Proof.
  induction s as [|c s IH]; simpl; [reflexivity|].
  destruct (rstrip s) as [|d t].
  - destruct (is_space c) eqn:Hc; simpl; auto.
  - exact IH.
Qed.

Lemma strip_trimmed s : trimmed (strip s).
Proof.
  split; unfold strip; [apply rstrip_first, lstrip_first|apply rstrip_last].
Qed.

(** X11.  What is typed into the text fields is trimmed: for every
    accepted row, the customer and the product typed into the form and
    the category selected start and end with a character that is not
    whitespace, or are empty. *)
Theorem product_fields_trimmed r p :
  parse_row r = Ok p ->
  trimmed (cliente p) /\ trimmed (produto p) /\ trimmed (categoria p) /\
  In (FillText "cliente" (cliente p)) (fill_actions p) /\
  In (FillText "produto" (produto p)) (fill_actions p) /\
  In (SelectValue (categoria p)) (fill_actions p).
Proof.
  unfold parse_row.
  destruct (unpack4 (firstn 4 r)) as [[[[c x] q] k]|e]; [|discriminate].
  unfold validar.
  destruct (negb (py_all [c; x; q; k])); [discriminate|].
  destruct (py_int q) as [n|e]; [|discriminate].
  intros [= <-]; simpl.
  repeat split; try apply strip_trimmed; auto 6.
Qed.

Lemma product_fields_trimmed_witness :
  parse_row row_bia = Ok (mkProduct "Bia" "Livro" 3 "Livros") /\
  trimmed "Bia" /\ trimmed "Livro" /\ trimmed "Livros".
Proof.
  split; [reflexivity|].
  destruct (product_fields_trimmed row_bia (mkProduct "Bia" "Livro" 3 "Livros") eq_refl)
    as (Hc & Hp & Hk & _).
  split; [exact Hc|]. split; [exact Hp|exact Hk].
Defined.

(** *** Releasing the browser *)

Lemma count_quits_setup pre : Forall setup_event pre -> count_quits pre = 0.
Proof.
  induction 1 as [|a l Ha _ IH]; [reflexivity|].
  destruct Ha as [(m & ->)|[(u & ->)|(f & ->)]]; exact IH.
Qed.

Lemma count_quits_run_events n evs : Forall (run_event n) evs -> count_quits evs = 0.
Proof.
  induction 1 as [|a l Ha _ IH]; [reflexivity|].
  destruct Ha as [Hf|[(m & c & -> & _)|(m & ->)]]; try exact IH.
  destruct a; try discriminate Hf; exact IH.
Qed.

Lemma processar_planilha_no_quit raises workbook self fp w :
  exists st wf,
    processar_planilha raises workbook self fp w = (Ok st, wf) /\
    st = stats wf /\
    count_quits (trace wf) = count_quits (trace w).
Proof.
  destruct (processar_planilha_shape raises workbook self fp w)
    as (st & wf & pre & evs & ds & crit & Hrun & Hst & (Ht & _) & Hsetup & _ & _ & Hev & _).
  exists st, wf; repeat split; auto.
  rewrite Ht, !count_quits_app, (count_quits_setup pre Hsetup),
    (count_quits_run_events _ evs Hev); lia.
Qed.

Lemma run_automation_of_any raises (engine : M Stats) a w r wf :
  driver a = true ->
  engine (set_automation (Some a) w) = (r, wf) ->
  exists w',
    run_automation_of raises engine a w = (Ok tt, w') /\
    stats w' = stats wf /\
    is_running w' = false /\
    trace w' = trace wf ++ [Quit] /\
    (raises (trace wf) Quit = None -> automation w' = None).
Proof.
  intros Hd He.
  unfold run_automation_of, try_finally, try_except, assign_is_running.
  unfold bind at 1, assign_automation at 1.
  unfold bind at 1; rewrite He.
  destruct r as [st|e]; unfold ret, bind; rewrite fechar_run by exact Hd;
    destruct (raises (trace wf) Quit); simpl;
    eexists; (split; [reflexivity|]); simpl; repeat split; auto; discriminate.
Qed.



(** X13.  The context manager releases the browser exactly once: a [with]
    block over the automation object calls [quit] right after its body,
    whether the body returns or raises; around [processar_planilha], as in
    the console harness, the block yields the statistics of the run unless
    that [quit] raises, and [quit] is called once in all. *)
Theorem with_block_quits_once raises workbook a fp w :
  driver a = true ->
  (forall (A : Type) (body : SeleniumAutomation -> M A) w0,
      trace (snd (with_as raises a body w0)) = trace (snd (body a w0)) ++ [Quit] /\
      (raises (trace (snd (body a w0))) Quit = None ->
       fst (with_as raises a body w0) = fst (body a w0))) /\
  exists st wf,
    processar_planilha raises workbook a fp w = (Ok st, wf) /\
    main_with raises workbook a fp w =
      (match raises (trace wf) Quit with None => Ok st | Some e => Raise e end,
       emit [Quit] wf) /\
    count_quits (trace (emit [Quit] wf)) = count_quits (trace w) + 1.
Proof.
  intros Hd.
  assert (Hwith : forall (A : Type) (body : SeleniumAutomation -> M A) w0,
             with_as raises a body w0 =
             (match raises (trace (snd (body a w0))) Quit with
              | None => fst (body a w0)
              | Some e => Raise e
              end, emit [Quit] (snd (body a w0)))).
  { intros A body w0.
    unfold with_as, __enter__, __exit__; rewrite bind_ret; unfold try_finally.
    destruct (body a w0) as [r wb]; rewrite fechar_run by exact Hd; simpl.
    destruct (raises (trace wb) Quit); reflexivity. }
  split.
  - intros A body w0; rewrite Hwith; simpl; split; [reflexivity|].
    intros ->; reflexivity.
  - destruct (processar_planilha_no_quit raises workbook a fp w)
      as (st & wf & Hrun & _ & Hq).
    exists st, wf; split; [exact Hrun|].
    split.
    + unfold main_with; rewrite Hwith, Hrun; reflexivity.
    + simpl; rewrite count_quits_app, Hq; reflexivity.
Qed.

Lemma with_block_quits_once_witness :
  exists st wf,
    processar_planilha (quit_raises "session deleted") (book [row_ana]) robot "dados.xlsx" fresh
      = (Ok st, wf) /\
    main_with (quit_raises "session deleted") (book [row_ana]) robot "dados.xlsx" fresh
      = (Raise "session deleted", emit [Quit] wf) /\
    count_quits (trace (emit [Quit] wf)) = 1.
Proof.
  destruct (with_block_quits_once (quit_raises "session deleted") (book [row_ana])
              robot "dados.xlsx" fresh eq_refl) as (_ & st & wf & Hrun & Hmain & Hq).
  exists st, wf; split; [exact Hrun|]. split; [exact Hmain|exact Hq].
Defined.

(** X14.  The stop button acts at most once on an automation object: when
    [quit] returns, a stop drops the reference to the object and clears
    [is_running], so that a second stop changes nothing; and after a run
    that ended by itself a stop changes nothing either. *)
Theorem stop_acts_once raises workbook a fp w :
  driver a = true ->
  (forall h, raises h Quit = None) ->
  (forall w0,
      automation w0 = Some a ->
      automation (snd (_stop_automation raises w0)) = None /\
      is_running (snd (_stop_automation raises w0)) = false /\
      trace (snd (_stop_automation raises w0)) = trace w0 ++ [Quit] /\
      _stop_automation raises (snd (_stop_automation raises w0))
      = (Ok tt, snd (_stop_automation raises w0))) /\
  exists w',
    _run_automation raises workbook a fp w = (Ok tt, w') /\
    _stop_automation raises w' = (Ok tt, w').
Proof.
  intros Hd Hquit; split.
  - intros w0 Ha.
    assert (Hstop : _stop_automation raises w0 =
                    (Ok tt, set_is_running false (set_automation None (emit [Quit] w0)))).
    { unfold _stop_automation; rewrite Ha.
      unfold bind; rewrite fechar_run by exact Hd; rewrite Hquit; reflexivity. }
    rewrite Hstop; simpl; repeat split.
  - destruct (processar_planilha_no_quit raises workbook a fp (set_automation (Some a) w))
      as (st & wf & Hrun & _ & _).
    destruct (run_automation_of_any raises _ a w _ _ Hd Hrun)
      as (w' & Hw & _ & _ & _ & Ha).
    exists w'; split; [exact Hw|].
    unfold _stop_automation; now rewrite (Ha (Hquit _)).
Qed.

Lemma stop_acts_once_witness :
  (forall h, never_raises h Quit = None) /\
  exists w',
    _run_automation never_raises (book [row_ana]) robot "dados.xlsx" fresh = (Ok tt, w') /\
    _stop_automation never_raises w' = (Ok tt, w').
Proof.
  assert (Hq : forall h, never_raises h Quit = None) by (intros h; reflexivity).
  split; [exact Hq|].
  exact (proj2 (stop_acts_once never_raises (book [row_ana]) robot "dados.xlsx" fresh
                  eq_refl Hq)).
Defined.

(** *** Progress reports are observations *)

Lemma no_callbacks_app t1 t2 :
  no_callbacks (t1 ++ t2) = no_callbacks t1 ++ no_callbacks t2.
Proof. apply filter_app. Qed.

Lemma no_callbacks_progress self m c t : no_callbacks (progress_events self m c t) = [].
Proof. unfold progress_events; now destruct (progress_callback self). Qed.

Lemma form_calls_no_callbacks t : form_calls (no_callbacks t) = form_calls t.
Proof.
  unfold form_calls, no_callbacks.
  induction t as [|a t IH]; simpl; [reflexivity|].
  destruct a; simpl; rewrite ?IH; reflexivity.
Qed.

Lemma attempt_blind raises acts : forall h1 h2,
  blind raises ->
  no_callbacks h1 = no_callbacks h2 ->
  snd (attempt raises h1 acts) = snd (attempt raises h2 acts) /\
  no_callbacks (fst (attempt raises h1 acts)) = no_callbacks (fst (attempt raises h2 acts)).
Proof.
  induction acts as [|a rest IH]; intros h1 h2 Hb Hh; simpl; [auto|].
  assert (Hnext : no_callbacks (h1 ++ [a]) = no_callbacks (h2 ++ [a]))
    by (rewrite !no_callbacks_app, Hh; reflexivity).
  rewrite (Hb h1 a), (Hb h2 a), Hh.
  destruct (raises (no_callbacks h2) a); simpl; auto.
Qed.

Lemma alike_record_failure d w1 w2 :
  alike w1 w2 ->
  alike (set_stats (record_failure d (stats w1)) w1)
        (set_stats (record_failure d (stats w2)) w2).
Proof.
  intros (Ht & Hs & He & Hd); repeat split; simpl; auto; congruence.
Qed.

Lemma loop_body_blind raises self1 self2 index r w1 w2 :
  blind raises -> sink_quiet raises -> alike w1 w2 ->
  exists w1' w2',
    loop_body raises self1 index r w1 = (Ok tt, w1') /\
    loop_body raises self2 index r w2 = (Ok tt, w2') /\
    alike w1' w2'.
Proof.
  intros Hb Hq Hal.
  destruct (is_blank r) eqn:Hblank.
  - exists w1, w2; rewrite !loop_body_blank by assumption; auto.
  - destruct (parse_row r) as [p|e] eqn:Hp.
    + rewrite !(loop_body_valid _ _ _ _ _ p), !report_progress_quiet by assumption.
      cbv zeta.
      destruct Hal as (Ht & Hs & He & Hd).
      destruct (attempt_blind raises (fill_actions p)
                  (trace (emit (progress_events self1 (processando p) index
                                  (total (stats w1))) w1) ++ [ClickClear])
                  (trace (emit (progress_events self2 (processando p) index
                                  (total (stats w2))) w2) ++ [ClickClear]) Hb)
        as [Hsnd Hfst].
      { unfold emit; cbn [trace set_trace].
        rewrite !no_callbacks_app, !no_callbacks_progress, Ht; reflexivity. }
      set (run1 := attempt raises
                     (trace (emit (progress_events self1 (processando p) index
                                     (total (stats w1))) w1) ++ [ClickClear])
                     (fill_actions p)) in *.
      set (run2 := attempt raises
                     (trace (emit (progress_events self2 (processando p) index
                                     (total (stats w2))) w2) ++ [ClickClear])
                     (fill_actions p)) in *.
      rewrite Hsnd.
      destruct (snd run2); eexists; eexists;
        (split; [reflexivity|split; [reflexivity|]]);
        unfold alike, same_outcome;
        cbn [trace stats set_stats set_trace emit inc_sucesso record_failure
             append_erro inc_erro sucesso erro erros_detalhados];
        repeat split; auto; congruence.
    + rewrite !(loop_body_rejected _ _ _ _ _ e) by assumption.
      eexists; eexists; split; [reflexivity|split; [reflexivity|]].
      now apply alike_record_failure.
Qed.

Lemma for_rows_blind raises self1 self2 rows : forall index w1 w2,
  blind raises -> sink_quiet raises -> alike w1 w2 ->
  exists w1' w2',
    for_rows raises self1 index rows w1 = (Ok tt, w1') /\
    for_rows raises self2 index rows w2 = (Ok tt, w2') /\
    alike w1' w2'.
Proof.
  induction rows as [|r rest IH]; intros index w1 w2 Hb Hq Hal.
  - exists w1, w2; auto.
  - destruct (loop_body_blind raises self1 self2 index r w1 w2 Hb Hq Hal)
      as (wa & wb & Ha & Hbb & Hal').
    destruct (IH (S index) wa wb Hb Hq Hal') as (w1' & w2' & H1 & H2 & Hal'').
    exists w1', w2'; simpl for_rows.
    erewrite !bind_ok by eassumption; auto.
Qed.

Lemma for_rows_blanks raises self blanks : forall index w,
  Forall (fun r => is_blank r = true) blanks ->
  for_rows raises self index blanks w = (Ok tt, w).
Proof.
  induction blanks as [|r rest IH]; intros index w Hall; [reflexivity|].
  inversion Hall as [|? ? Hr Hrest]; subst.
  simpl for_rows; erewrite bind_ok by (apply loop_body_blank; exact Hr).
  now apply IH.
Qed.

Lemma for_rows_total raises self rows index w w' :
  for_rows raises self index rows w = (Ok tt, w') -> total (stats w') = total (stats w).
Proof.
  intros H.
  destruct (for_rows_returns raises self rows index w) as (w2 & Hr & Ho & _).
  rewrite H in Hr; injection Hr as <-.
  exact (proj1 (outcomes_counts _ _ _ _ Ho)).
Qed.

Lemma alike_started wb1 wb2 self1 self2 fp w :
  url self1 = url self2 ->
  alike (started wb1 self1 fp w) (started wb2 self2 fp w).
Proof.
  intros Hu; unfold alike, started, emit; cbn [trace stats set_trace set_stats].
  rewrite !no_callbacks_app, !no_callbacks_progress, Hu.
  repeat split.
Qed.

Lemma alike_finished self1 self2 w1 w2 :
  alike w1 w2 -> alike (finished self1 w1) (finished self2 w2).
Proof.
  intros (Ht & Hs); unfold alike, finished, emit; cbn [trace stats set_trace].
  rewrite !no_callbacks_app, !no_callbacks_progress, Ht; auto.
Qed.

Lemma stats_eq s1 s2 :
  total s1 = total s2 -> same_outcome s1 s2 -> s1 = s2.
Proof.
  destruct s1, s2; unfold same_outcome; simpl.
  intros -> (-> & -> & ->); reflexivity.
Qed.

(** X15.  Progress reports are observations only: with collaborators that
    do not look at the progress reports and a sink that does not raise,
    the run with a progress callback and the run without one return the
    same statistics and make the same calls on the browser. *)
Theorem progress_callback_is_passive raises workbook u d fp w :
  blind raises -> sink_quiet raises -> opens raises ->
  exists st1 w1 st2 w2,
    processar_planilha raises workbook (mkAutomation u true d) fp w = (Ok st1, w1) /\
    processar_planilha raises workbook (mkAutomation u false d) fp w = (Ok st2, w2) /\
    st1 = st2 /\
    no_callbacks (trace w1) = no_callbacks (trace w2) /\
    form_calls (trace w1) = form_calls (trace w2).
Proof.
  intros Hb Hq Ho.
  destruct (for_rows_blind raises (mkAutomation u true d) (mkAutomation u false d)
              (tl (workbook fp)) 1
              (started workbook (mkAutomation u true d) fp w)
              (started workbook (mkAutomation u false d) fp w)
              Hb Hq
              (alike_started workbook workbook (mkAutomation u true d)
                 (mkAutomation u false d) fp w eq_refl))
    as (w1 & w2 & H1 & H2 & Hal).
  exists (stats w1), (finished (mkAutomation u true d) w1),
    (stats w2), (finished (mkAutomation u false d) w2).
  split; [exact (processar_planilha_run raises workbook _ fp w w1 Hq Ho H1)|].
  split; [exact (processar_planilha_run raises workbook _ fp w w2 Hq Ho H2)|].
  destruct (alike_finished (mkAutomation u true d) (mkAutomation u false d) w1 w2 Hal)
    as (Ht & _).
  split.
  - apply stats_eq; [|exact (proj2 Hal)].
    rewrite (for_rows_total _ _ _ _ _ _ H1), (for_rows_total _ _ _ _ _ _ H2).
    reflexivity.
  - split; [exact Ht|].
    rewrite <- (form_calls_no_callbacks (trace (finished _ w1))), Ht.
    apply form_calls_no_callbacks.
Qed.

Lemma progress_callback_is_passive_witness :
  blind (submit_raises "x") /\ sink_quiet (submit_raises "x") /\
  opens (submit_raises "x") /\
  exists st1 w1 st2 w2,
    processar_planilha (submit_raises "x") (book [row_ana; row_zero])
      (mkAutomation "http://localhost/" true true) "dados.xlsx" fresh = (Ok st1, w1) /\
    processar_planilha (submit_raises "x") (book [row_ana; row_zero])
      (mkAutomation "http://localhost/" false true) "dados.xlsx" fresh = (Ok st2, w2) /\
    st1 = st2 /\
    no_callbacks (trace w1) = no_callbacks (trace w2) /\
    form_calls (trace w1) = form_calls (trace w2).
Proof.
  assert (Hb : blind (submit_raises "x")) by (intros h a; reflexivity).
  assert (Hq : sink_quiet (submit_raises "x")) by (intros h m c t; reflexivity).
  assert (Ho : opens (submit_raises "x")) by (split; intros; reflexivity).
  split; [exact Hb|]. split; [exact Hq|]. split; [exact Ho|].
  exact (progress_callback_is_passive (submit_raises "x") (book [row_ana; row_zero])
           "http://localhost/" true "dados.xlsx" fresh Hb Hq Ho).
Defined.

(** X16.  Trailing blank rows only inflate [total]: with collaborators
    that do not look at the progress reports and a sink that does not
    raise, appending blank rows to a sheet adds their number to [total]
    and changes neither the other counters, nor the failure entries, nor
    the calls made on the form. *)
Theorem trailing_blank_rows raises wb1 wb2 self fp blanks w :
  blind raises -> sink_quiet raises -> opens raises ->
  wb1 fp <> [] ->
  wb2 fp = wb1 fp ++ blanks ->
  Forall (fun r => is_blank r = true) blanks ->
  exists st1 w1 st2 w2,
    processar_planilha raises wb1 self fp w = (Ok st1, w1) /\
    processar_planilha raises wb2 self fp w = (Ok st2, w2) /\
    total st2 = total st1 + length blanks /\
    same_outcome st1 st2 /\
    form_calls (trace w1) = form_calls (trace w2).
Proof.
  intros Hb Hq Ho Hne Hwb Hblanks.
  assert (Htl : tl (wb2 fp) = tl (wb1 fp) ++ blanks).
  { rewrite Hwb; destruct (wb1 fp); [now destruct Hne|reflexivity]. }
  destruct (for_rows_blind raises self self (tl (wb1 fp)) 1
              (started wb1 self fp w) (started wb2 self fp w)
              Hb Hq (alike_started wb1 wb2 self self fp w eq_refl))
    as (w1 & w2 & H1 & H2 & Hal).
  assert (H2' : for_rows raises self 1 (tl (wb2 fp)) (started wb2 self fp w) = (Ok tt, w2)).
  { rewrite Htl, for_rows_app, H2; now apply for_rows_blanks. }
  exists (stats w1), (finished self w1), (stats w2), (finished self w2).
  split; [exact (processar_planilha_run raises wb1 self fp w w1 Hq Ho H1)|].
  split; [exact (processar_planilha_run raises wb2 self fp w w2 Hq Ho H2')|].
  split.
  - rewrite (for_rows_total _ _ _ _ _ _ H1), (for_rows_total _ _ _ _ _ _ H2).
    rewrite !started_stats; cbn [total]; rewrite Htl; apply length_app.
  - split; [exact (proj2 Hal)|].
    destruct (alike_finished self self w1 w2 Hal) as (Ht & _).
    rewrite <- (form_calls_no_callbacks (trace (finished self w1))), Ht.
    apply form_calls_no_callbacks.
Qed.

Lemma trailing_blank_rows_witness :
  blind first_fill_raises /\ sink_quiet first_fill_raises /\ opens first_fill_raises /\
  exists st1 w1 st2 w2,
    processar_planilha first_fill_raises (book [row_ana; row_bia])
      robot "dados.xlsx" fresh = (Ok st1, w1) /\
    processar_planilha first_fill_raises (book [row_ana; row_bia; row_blank; []])
      robot "dados.xlsx" fresh = (Ok st2, w2) /\
    total st2 = total st1 + 2 /\
    same_outcome st1 st2 /\
    form_calls (trace w1) = form_calls (trace w2).
Proof.
  assert (Hcf : forall h, cliente_fills (no_callbacks h) = cliente_fills h).
  { induction h as [|a h IH]; [reflexivity|].
    destruct a; simpl; try exact IH.
    destruct (String.eqb field_id "cliente"); simpl; now rewrite IH. }
  assert (Hb : blind first_fill_raises).
  { intros h a; unfold first_fill_raises; destruct a; try reflexivity.
    now rewrite Hcf. }
  assert (Hq : sink_quiet first_fill_raises) by (intros h m c t; reflexivity).
  assert (Ho : opens first_fill_raises) by (split; intros; reflexivity).
  split; [exact Hb|]. split; [exact Hq|]. split; [exact Ho|].
  apply (trailing_blank_rows first_fill_raises (book [row_ana; row_bia])
           (book [row_ana; row_bia; row_blank; []]) robot "dados.xlsx"
           [row_blank; []] fresh Hb Hq Ho).
  - discriminate.
  - reflexivity.
  - repeat constructor.
Defined.
